(** * Project import of ThreeMFWorkspaceReader: conflict inspection,
      resolution strategies, write pass with clean-up, material resolution.

    Shallow embedding of plugins/3MFReader/ThreeMFWorkspaceReader.py.
    Python objects that live in the container registry are values stored
    under their identity; a reference to a registered object is its
    identity.  Exceptions are explicit results. *)

From stdpp Require Import gmap strings list fin_maps.
From Stdlib Require Import String Ascii.

Open Scope string_scope.
Open Scope list_scope.

(** ** Python values and exceptions *)

Inductive Exception :=
| IndexError
| KeyError
| AttributeError
| RuntimeError
| DeserializeError.

Inductive Outcome (A : Type) :=
| Done (a : A)
| Raised (e : Exception).

Arguments Done {A} a.
Arguments Raised {A} e.

#[global] Instance Exception_eq_dec : EqDecision Exception.
Proof. solve_decision. Defined.

#[global] Instance Outcome_eq_dec {A : Type} `{EqDecision A} :
  EqDecision (Outcome A).
Proof. solve_decision. Defined.

#[global] Instance outcome_ret : MRet Outcome := fun A a => Done a.

#[global] Instance outcome_bind : MBind Outcome := fun A B k o =>
  match o with
  | Done a => k a
  | Raised e => Raised e
  end.

(** [dict[key]]: a missing key raises KeyError. *)
Definition subscript {V : Type} (d : gmap string V) (key : string) : Outcome V :=
  match d !! key with
  | Some v => Done v
  | None => Raised KeyError
  end.

(** Truth value of a string, and of the result of a [get] with default None. *)
Definition truthy (s : string) : bool := negb (String.eqb s "").

Definition truthy_opt (o : option string) : bool :=
  match o with
  | Some s => truthy s
  | None => false
  end.

(** [s[0:n]] and [s[n:]]. *)
Definition slice_to (n : nat) (s : string) : string := substring 0 n s.

Definition slice_from (n : nat) (s : string) : string :=
  substring n (String.length s - n) s.

(** [s.split(sep)] for a one-character separator. *)
Fixpoint split (sep : ascii) (s : string) : list string :=
  match s with
  | EmptyString => [""]
  | String c rest =>
      if Ascii.eqb c sep then "" :: split sep rest
      else match split sep rest with
           | hd :: tl => String c hd :: tl
           | [] => [String c ""]
           end
  end.

(** [l.insert(i, x)]: everything from index [i] on moves one place up; an
    index past the end appends. *)
Definition py_insert {A : Type} (i : nat) (x : A) (l : list A) : list A :=
  take i l ++ x :: drop i l.

(** ** configparser

    The text of an INI entry is represented by what
    [ConfigParser.read_string] yields for it: the sections in order, each
    with its options in order. *)

Definition Options := list (string * string).
Definition Config := list (string * Options).

Fixpoint assoc {V : Type} (key : string) (l : list (string * V)) : option V :=
  match l with
  | [] => None
  | (k, v) :: rest => if String.eqb k key then Some v else assoc key rest
  end.

Definition has_section (parser : Config) (section : string) : bool :=
  match assoc section parser with
  | Some _ => true
  | None => false
  end.

Definition has_option (parser : Config) (section option : string) : bool :=
  match assoc section parser with
  | Some opts =>
      match assoc option opts with
      | Some _ => true
      | None => false
      end
  | None => false
  end.

(** [parser[section][option]]: KeyError when either is missing. *)
Definition config_subscript (parser : Config) (section option : string)
  : Outcome string :=
  match assoc section parser with
  | Some opts =>
      match assoc option opts with
      | Some v => Done v
      | None => Raised KeyError
      end
  | None => Raised KeyError
  end.

(** [parser[section].get(option, default)]. *)
Definition config_get (parser : Config) (section option fallback : string)
  : Outcome string :=
  match assoc section parser with
  | Some opts =>
      match assoc option opts with
      | Some v => Done v
      | None => Done fallback
      end
  | None => Raised KeyError
  end.

(** ** Containers and the registry *)

Inductive Kind :=
| DefinitionContainer
| InstanceContainer
| ContainerStack.

#[global] Instance Kind_eq_dec : EqDecision Kind.
Proof. solve_decision. Defined.

(** One record for every container class.  [c_containers] is the slot list
    of a stack: entry [i] is [getContainer(i).getId()].  [c_extruders] is
    the [extruders] dictionary of a machine stack, from position to the
    identity of the extruder stack. *)
Record Container := mkContainer {
  c_kind : Kind;
  c_id : string;
  c_name : string;
  c_metadata : gmap string string;
  c_instances : gmap string string;
  c_containers : list string;
  c_extruders : gmap string string;
  c_read_only : bool;
  c_dirty : bool;
}.

Abbreviation Registry := (gmap string Container).

Definition new_container (kind : Kind) (container_id : string) : Container :=
  mkContainer kind container_id container_id ∅ ∅ [] ∅ false false.

Definition set_id (new_id : string) (c : Container) : Container :=
  mkContainer (c_kind c) new_id (c_name c) (c_metadata c) (c_instances c)
    (c_containers c) (c_extruders c) (c_read_only c) (c_dirty c).

Definition setName (name : string) (c : Container) : Container :=
  mkContainer (c_kind c) (c_id c) name (c_metadata c) (c_instances c)
    (c_containers c) (c_extruders c) (c_read_only c) (c_dirty c).

Definition set_metadata (m : gmap string string) (c : Container) : Container :=
  mkContainer (c_kind c) (c_id c) (c_name c) m (c_instances c)
    (c_containers c) (c_extruders c) (c_read_only c) (c_dirty c).

Definition set_containers (l : list string) (c : Container) : Container :=
  mkContainer (c_kind c) (c_id c) (c_name c) (c_metadata c) (c_instances c)
    l (c_extruders c) (c_read_only c) (c_dirty c).

Definition setDirty (d : bool) (c : Container) : Container :=
  mkContainer (c_kind c) (c_id c) (c_name c) (c_metadata c) (c_instances c)
    (c_containers c) (c_extruders c) (c_read_only c) d.

Definition getMetaDataEntry (c : Container) (key : string) : option string :=
  c_metadata c !! key.

Definition setMetaDataEntry (key value : string) (c : Container) : Container :=
  set_metadata (<[key := value]> (c_metadata c)) c.

(** [addMetaDataEntry] only adds: an entry that is there already is kept. *)
Definition addMetaDataEntry (key value : string) (c : Container) : Container :=
  match c_metadata c !! key with
  | Some _ => c
  | None => setDirty true (set_metadata (<[key := value]> (c_metadata c)) c)
  end.

(** [stack.getContainer(index).getId()]. *)
Definition getContainer (stack : Container) (index : nat) : Outcome string :=
  match c_containers stack !! index with
  | Some occupant => Done occupant
  | None => Raised IndexError
  end.

Definition replaceContainer (index : nat) (occupant : string) (stack : Container)
  : Container :=
  set_containers (<[index := occupant]> (c_containers stack)) stack.

(** Modelled from the spec: the registry interface (section 6),
    [findByIdentity], [add], [remove], [isReadOnly]; the ContainerRegistry
    class is not part of the plugin.  Identities are unique, so a query by
    identity yields at most one record; [add] of an identity that is
    registered already leaves the registry as it is. *)
Definition find_kind (kind : Kind) (reg : Registry) (container_id : string)
  : option Container :=
  match reg !! container_id with
  | Some c => if decide (c_kind c = kind) then Some c else None
  | None => None
  end.

Definition findDefinitionContainers := find_kind DefinitionContainer.
Definition findInstanceContainers := find_kind InstanceContainer.
Definition findContainerStacks := find_kind ContainerStack.

Definition findContainers (reg : Registry) (container_id : string)
  : option Container := reg !! container_id.

Definition addContainer (c : Container) (reg : Registry) : Registry :=
  match reg !! c_id c with
  | Some _ => reg
  | None => <[c_id c := c]> reg
  end.

Definition removeContainer (container_id : string) (reg : Registry) : Registry :=
  delete container_id reg.

Definition isReadOnly (reg : Registry) (container_id : string) : bool :=
  match reg !! container_id with
  | Some c => c_read_only c
  | None => false
  end.

(** What the plugin calls and does not define: the registry's name
    generator, the containers' own [deserialize] and comparison, the stack
    builder, whether a material profile class is installed, and the slot
    numbering of [_ContainerIndexes].
    [deserialize c text] is [c] after [c.deserialize(text)], or [None] when
    the call raises. *)
Class Collaborators := {
  uniqueName : Registry -> string -> string;
  deserialize : Container -> Config -> option Container;
  deserialize_text : Container -> string -> option Container;
  container_ne : Container -> Container -> bool;
  createDefinitionChangesContainer :
    Registry -> Container -> string -> Registry * Container;
  addExtruderStackForSingleExtrusionMachine :
    Registry -> Container -> string -> Registry * option Container;
  xml_material_profile : bool;
  ContainerIndexes_Material : nat;
}.

(** The definition-changes slot: "index 5 becomes definition_changes". *)
Definition ContainerIndexes_DefinitionChanges : nat := 5.

(** Number of slots, [len(_ContainerIndexes.IndexTypeMap)]: "now we have 7". *)
Definition ContainerIndexes_count : nat := 7.

(** ** [_getContainerIdListFromSerialized] *)

(** The identities as the file lists them, before the legacy fix. *)
Definition parse_container_ids (parser : Config) : list string :=
  match assoc "containers" parser with
  | Some items => map snd items
  | None =>
      if has_option parser "general" "containers" then
        match config_get parser "general" "containers" "" with
        | Done container_string =>
            filter (fun container_id => container_id <> "")
              (split "," container_string)
        | Raised _ => []
        end
      else []
  end.

Definition getContainerIdListFromSerialized (serialized : Config) : list string :=
  let container_ids := parse_container_ids serialized in
  if Nat.eqb (List.length container_ids) 6
  then py_insert 5 "empty" container_ids
  else container_ids.

(** ** [_replaceStackMaterialWithNew] *)

(** One round of the loop over the old parent identities: the state is
    [best_matching_old_material_id] and the matched prefix length, which
    starts at -1. *)
Definition prefix_step (old_material_id_in_stack : string)
  (best : option string * Z) (old_parent_material_id : string)
  : option string * Z :=
  if (Z.of_nat (String.length old_parent_material_id) <? best.2)%Z then best
  else if Nat.leb (String.length old_parent_material_id)
                  (String.length old_material_id_in_stack)
  then
    if String.eqb old_parent_material_id
         (slice_to (String.length old_parent_material_id) old_material_id_in_stack)
    then (Some old_parent_material_id,
          Z.of_nat (String.length old_parent_material_id))
    else best
  else best.

Definition best_matching_old_material_id (old_material_id_in_stack : string)
  (old_parents : list string) : option string :=
  (foldl (prefix_step old_material_id_in_stack) (None, (-1)%Z) old_parents).1.

(** [old_new_material_dict] is a dictionary from old parent identity to the
    new material container, kept in insertion order. *)
Definition new_material_id (old_new_material_dict : list (string * Container))
  (old_material_id_in_stack best : string) : Outcome string :=
  match assoc best old_new_material_dict with
  | Some new_parent =>
      Done (c_id new_parent +:+
            slice_from (String.length best) old_material_id_in_stack)
  | None => Raised KeyError
  end.

Definition find_material (reg : Registry) (container_id : string)
  : option Container :=
  match findInstanceContainers reg container_id with
  | Some c =>
      if decide (getMetaDataEntry c "type" = Some "material") then Some c
      else None
  | None => None
  end.

Definition replaceStackMaterialWithNew `{Collaborators} (reg : Registry)
  (stack : Container) (old_new_material_dict : list (string * Container))
  : Outcome Container :=
  old_material_id_in_stack ← getContainer stack ContainerIndexes_Material;
  match best_matching_old_material_id old_material_id_in_stack
          (map fst old_new_material_dict) with
  | None => Done stack
  | Some best =>
      new_id ← new_material_id old_new_material_dict old_material_id_in_stack best;
      match find_material reg new_id with
      | None => Done stack
      | Some new_material =>
          Done (replaceContainer ContainerIndexes_Material
                  (c_id new_material) stack)
      end
  end.

(** ** The project archive

    The entries below "Cura/", grouped by the suffix of their name;
    [e_id] is what [_stripFileToId] yields for the name. *)

Record Entry := mkEntry { e_id : string; e_serialized : Config }.

Record TextEntry := mkTextEntry { t_id : string; t_serialized : string }.

Record Archive := mkArchive {
  definition_container_files : list TextEntry;
  material_container_files : list TextEntry;
  instance_container_files : list Entry;
  global_stack_suffix_files : list Entry;
  extruder_stack_suffix_files : list Entry;
  container_stack_suffix_files : list Entry;
  has_preferences : bool;
}.

Fixpoint foldM {A B : Type} (f : A -> B -> Outcome A) (a : A) (l : list B)
  : Outcome A :=
  match l with
  | [] => Done a
  | b :: rest => a' ← f a b; foldM f a' rest
  end.

(** ** [_determineGlobalAndExtruderStackFiles] *)

Definition determine_stack_file (lists : list Entry * list Entry)
  (file : Entry) : list Entry * list Entry :=
  if negb (has_option (e_serialized file) "metadata" "type") then lists
  else
    let stack_type := config_subscript (e_serialized file) "metadata" "type" in
    if decide (stack_type = Done "extruder_train")
    then (lists.1, lists.2 ++ [file])
    else if decide (stack_type = Done "machine")
    then (lists.1 ++ [file], lists.2)
    else lists.

Definition determineGlobalAndExtruderStackFiles (archive : Archive)
  : Outcome (Entry * list Entry) :=
  let lists :=
    foldl determine_stack_file
      (global_stack_suffix_files archive, extruder_stack_suffix_files archive)
      (container_stack_suffix_files archive) in
  match lists.1 with
  | [global_stack_file] => Done (global_stack_file, lists.2)
  | _ => Raised RuntimeError
  end.

(** ** [preRead]: the inspection *)

Record ConflictReport := mkReport {
  machine_conflict : bool;
  quality_changes_conflict : bool;
  definition_changes_conflict : bool;
  material_conflict : bool;
  containers_found_dict : gmap string bool;
  num_settings_overriden_by_quality_changes : nat;
  num_user_settings : nat;
  extruder_definition_container_count : nat;
}.

Definition resolve_strategy_keys : list string :=
  ["machine"; "material"; "quality_changes"].

(** Definition containers: (machine count, extruder count). *)
Definition count_definition `{Collaborators} (reg : Registry)
  (counts : nat * nat) (file : TextEntry) : Outcome (nat * nat) :=
  definition_container ←
    match findDefinitionContainers reg (t_id file) with
    | Some live => Done live
    | None =>
        match deserialize_text (new_container DefinitionContainer (t_id file))
                (t_serialized file) with
        | Some c => Done c
        | None => Raised DeserializeError
        end
    end;
  let definition_container_type := getMetaDataEntry definition_container "type" in
  if decide (definition_container_type = Some "machine")
  then Done (S counts.1, counts.2)
  else if decide (definition_container_type = Some "extruder")
  then Done (counts.1, S counts.2)
  else Done counts.

(** Materials: the state is [containers_found_dict] and [material_conflict]. *)
Definition inspect_material (reg : Registry) (st : gmap string bool * bool)
  (file : TextEntry) : gmap string bool * bool :=
  match findContainers reg (t_id file) with
  | Some _ =>
      (<["material" := true]> st.1,
       if negb (isReadOnly reg (t_id file)) then true else st.2)
  | None => st
  end.

Definition inspect_materials `{Collaborators} (reg : Registry)
  (found : gmap string bool) (files : list TextEntry)
  : gmap string bool * bool :=
  if xml_material_profile
  then foldl (inspect_material reg) (found, false) files
  else (found, false).

(** Instance containers. *)
Record InstanceScan := mkScan {
  scan_found : gmap string bool;
  scan_quality_changes_conflict : bool;
  scan_definition_changes_conflict : bool;
  scan_num_quality_changes : nat;
  scan_num_definition_changes : nat;
  scan_num_user : nat;
}.

Definition inspect_instance `{Collaborators} (reg : Registry)
  (st : InstanceScan) (file : Entry) : Outcome InstanceScan :=
  match deserialize (new_container InstanceContainer (e_id file))
          (e_serialized file) with
  | None => Raised DeserializeError
  | Some instance_container =>
      let container_type := getMetaDataEntry instance_container "type" in
      if decide (container_type = Some "quality_changes") then
        let num := scan_num_quality_changes st +
                   size (c_instances instance_container) in
        match findInstanceContainers reg (e_id file) with
        | Some live =>
            Done (mkScan (<["quality_changes" := true]> (scan_found st))
                    (if container_ne live instance_container then true
                     else scan_quality_changes_conflict st)
                    (scan_definition_changes_conflict st)
                    num (scan_num_definition_changes st) (scan_num_user st))
        | None =>
            Done (mkScan (scan_found st) (scan_quality_changes_conflict st)
                    (scan_definition_changes_conflict st)
                    num (scan_num_definition_changes st) (scan_num_user st))
        end
      else if decide (container_type = Some "definition_changes") then
        let num := scan_num_definition_changes st +
                   size (c_instances instance_container) in
        match findInstanceContainers reg (e_id file) with
        | Some live =>
            Done (mkScan (<["definition_changes" := true]> (scan_found st))
                    (scan_quality_changes_conflict st)
                    (if container_ne live instance_container then true
                     else scan_definition_changes_conflict st)
                    (scan_num_quality_changes st) num (scan_num_user st))
        | None =>
            Done (mkScan (scan_found st) (scan_quality_changes_conflict st)
                    (scan_definition_changes_conflict st)
                    (scan_num_quality_changes st) num (scan_num_user st))
        end
      else if decide (container_type = Some "quality") then Done st
      else if decide (container_type = Some "user") then
        Done (mkScan (scan_found st) (scan_quality_changes_conflict st)
                (scan_definition_changes_conflict st)
                (scan_num_quality_changes st) (scan_num_definition_changes st)
                (scan_num_user st + size (c_instances instance_container)))
      else Done st
  end.

(** In Cura 2.5 and 2.6 the empty profiles had long names. *)
Definition old_empty_profile_id_dict : gmap string string :=
  list_to_map (map (fun k => ("empty_" +:+ k, "empty")) ["material"; "variant"]).

Definition old_empty_profile_id (container_id : string) : string :=
  match old_empty_profile_id_dict !! container_id with
  | Some renamed => renamed
  | None => container_id
  end.

(** The loop over [enumerate(id_list)], from [index] on: [Done true] at the
    first slot whose occupant differs, [Done false] when the list is
    exhausted. *)
Fixpoint slots_differ (stack : Container) (index : nat) (id_list : list string)
  : Outcome bool :=
  match id_list with
  | [] => Done false
  | container_id :: rest =>
      let container_id := old_empty_profile_id container_id in
      occupant ← getContainer stack index;
      if decide (occupant <> container_id) then Done true
      else slots_differ stack (S index) rest
  end.

(** The machine stack: [containers_found_dict["machine"]], the stack found
    and [machine_conflict]. *)
Definition inspect_machine (reg : Registry) (global_stack_file : Entry)
  : Outcome (option Container * bool) :=
  match findContainerStacks reg (e_id global_stack_file) with
  | Some global_stack =>
      conflict ← slots_differ global_stack 0
        (getContainerIdListFromSerialized (e_serialized global_stack_file));
      Done (Some global_stack, conflict)
  | None => Done (None, false)
  end.

(** A referenced extruder stack is a registered object; Python cannot hold
    a reference to nothing, the lookup stands for following it. *)
Definition follow (reg : Registry) (container_id : string) : Outcome Container :=
  subscript reg container_id.

(** The loop over the extruder stack files.  The inner [break] leaves the
    slot loop only; the [break] at a missing position leaves this loop. *)
Fixpoint inspect_extruders (reg : Registry) (global_stack : Container)
  (files : list Entry) (machine_conflict : bool) : Outcome bool :=
  match files with
  | [] => Done machine_conflict
  | extruder_stack_file :: rest =>
      position ← config_subscript (e_serialized extruder_stack_file)
                   "metadata" "position";
      match c_extruders global_stack !! position with
      | None => Done false
      | Some extruder_id =>
          existing_extruder_stack ← follow reg extruder_id;
          differs ← slots_differ existing_extruder_stack 0
            (getContainerIdListFromSerialized (e_serialized extruder_stack_file));
          inspect_extruders reg global_stack rest
            (if (differs : bool) then true else machine_conflict)
      end
  end.

(** Everything [preRead] finds out before it looks at the preferences. *)
Definition inspect `{Collaborators} (archive : Archive) (reg : Registry)
  : Outcome ConflictReport :=
  let containers_found_dict : gmap string bool :=
    list_to_map (map (fun k => (k, false)) resolve_strategy_keys) in
  counts ← foldM (count_definition reg) (0, 0)
    (definition_container_files archive);
  if negb (Nat.eqb counts.1 1) then Raised RuntimeError else
  let materials :=
    inspect_materials reg containers_found_dict
      (material_container_files archive) in
  scan ← foldM (inspect_instance reg)
    (mkScan materials.1 false false 0 0 0) (instance_container_files archive);
  stack_files ← determineGlobalAndExtruderStackFiles archive;
  machine ← inspect_machine reg stack_files.1;
  machine_conflict ←
    match machine.1 with
    | Some global_stack =>
        if negb machine.2
        then inspect_extruders reg global_stack stack_files.2 machine.2
        else Done machine.2
    | None => Done machine.2
    end;
  Done (mkReport machine_conflict
          (scan_quality_changes_conflict scan)
          (scan_definition_changes_conflict scan)
          materials.2
          (match machine.1 with
           | Some _ => <["machine" := true]> (scan_found scan)
           | None => scan_found scan
           end)
          (scan_num_quality_changes scan) (scan_num_user scan) counts.2).

(** ** [preRead]: the decision and its defaults *)

Inductive PreReadResult :=
| accepted
| failed
| cancelled.

Abbreviation Strategies := (gmap string (option string)).

(** One round of the loop over [self._resolve_strategies.items()]. *)
Definition default_strategy (containers_found_dict : gmap string bool)
  (key : string) (strategy : option string) : option string :=
  match containers_found_dict !! key with
  | None => strategy
  | Some found =>
      match strategy with
      | Some _ => strategy
      | None => Some (if (found : bool) then "override" else "new")
      end
  end.

Definition apply_default_strategies (containers_found_dict : gmap string bool)
  (resolve_strategies : Strategies) : Strategies :=
  map_imap (fun key strategy =>
              Some (default_strategy containers_found_dict key strategy))
    resolve_strategies.

(** [mesh_reader_accepts]: a mesh reader exists and accepts the file.
    [dialog] is the answer of the dialog to the report it is shown.
    [resolve_strategies] is the reader's field before the call; the
    result carries the field after it. *)
Definition preRead `{Collaborators} (mesh_reader_accepts show_dialog : bool)
  (dialog : ConflictReport -> Strategies) (archive : Archive) (reg : Registry)
  (resolve_strategies : Strategies) : Outcome (PreReadResult * Strategies) :=
  if negb mesh_reader_accepts then Done (failed, resolve_strategies) else
  let resolve_strategies : Strategies :=
    list_to_map (map (fun k => (k, None)) resolve_strategy_keys) in
  report ← inspect archive reg;
  if negb (has_preferences archive) then Done (failed, resolve_strategies) else
  if negb show_dialog then Done (accepted, resolve_strategies) else
  let result := dialog report in
  if decide (result = ∅) then Done (cancelled, resolve_strategies) else
  Done (accepted,
        apply_default_strategies (containers_found_dict report) result).

(** ** [read]: the write pass

    [registry] is the container registry, [id_mapping] the cache of
    [getNewId], [containers_to_add] the containers waiting for the batch,
    [containers_added] the containers recorded for the clean-up; the
    clean-up only asks these for their identity, which nothing changes
    once they are recorded. *)

Record ReadState := mkState {
  registry : Registry;
  id_mapping : gmap string string;
  containers_to_add : list Container;
  containers_added : list string;
}.

Definition set_registry (reg : Registry) (st : ReadState) : ReadState :=
  mkState reg (id_mapping st) (containers_to_add st) (containers_added st).

Definition getNewId `{Collaborators} (old_id : string) (st : ReadState)
  : string * ReadState :=
  match id_mapping st !! old_id with
  | Some new_id => (new_id, st)
  | None =>
      let new_id := uniqueName (registry st) old_id in
      (new_id,
       mkState (registry st) (<[old_id := new_id]> (id_mapping st))
         (containers_to_add st) (containers_added st))
  end.

(** The identities and the name chosen before anything is loaded. *)
Record Plan := mkPlan {
  global_stack_id_original : string;
  global_stack_id_new : string;
  global_stack_name_new : string;
  global_stack_need_rename : bool;
  extruder_stack_id_map : gmap string string;
}.

Definition map_extruder_id `{Collaborators}
  (acc : gmap string string * ReadState) (file : Entry)
  : gmap string string * ReadState :=
  let old_container_id := e_id file in
  match findContainerStacks (registry acc.2) old_container_id with
  | Some _ =>
      let new := getNewId old_container_id acc.2 in
      (<[old_container_id := new.1]> acc.1, new.2)
  | None => (<[old_container_id := old_container_id]> acc.1, acc.2)
  end.

Definition prepare_ids `{Collaborators} (resolve_strategies : Strategies)
  (global_stack_file : Entry) (extruder_stack_files : list Entry)
  (st : ReadState) : Outcome (Plan * ReadState) :=
  let global_stack_id_original := e_id global_stack_file in
  global_stack_name_original ←
    config_get (e_serialized global_stack_file) "general" "name" "";
  machine ← subscript resolve_strategies "machine";
  if decide (machine = Some "new") then
    let renamed :=
      match findContainerStacks (registry st) global_stack_id_original with
      | Some _ =>
          let new := getNewId global_stack_id_original st in
          (new.1, true, new.2)
      | None => (global_stack_id_original, false, st)
      end in
    let global_stack_name_new :=
      uniqueName (registry renamed.2) global_stack_name_original in
    let mapped := foldl map_extruder_id (∅, renamed.2) extruder_stack_files in
    Done (mkPlan global_stack_id_original renamed.1.1 global_stack_name_new
            renamed.1.2 mapped.1, mapped.2)
  else
    Done (mkPlan global_stack_id_original global_stack_id_original
            global_stack_name_original false ∅, st).

(** Definitions are added to the registry as they are met. *)
Definition load_definition `{Collaborators} (st : ReadState) (file : TextEntry)
  : Outcome ReadState :=
  match findDefinitionContainers (registry st) (t_id file) with
  | Some _ => Done st
  | None =>
      match deserialize_text (new_container DefinitionContainer (t_id file))
              (t_serialized file) with
      | Some definition_container =>
          Done (set_registry (addContainer definition_container (registry st)) st)
      | None => Raised DeserializeError
      end
  end.

Definition append_to_add (c : Container) (st : ReadState) : ReadState :=
  mkState (registry st) (id_mapping st) (containers_to_add st ++ [c])
    (containers_added st).

Definition load_material `{Collaborators} (resolve_strategies : Strategies)
  (st : ReadState) (file : TextEntry) : Outcome ReadState :=
  let container_id := t_id file in
  match findInstanceContainers (registry st) container_id with
  | None =>
      match deserialize_text (new_container InstanceContainer container_id)
              (t_serialized file) with
      | Some material_container => Done (append_to_add material_container st)
      | None => Raised DeserializeError
      end
  | Some live =>
      if negb (isReadOnly (registry st) container_id) then
        material ← subscript resolve_strategies "material";
        if decide (material = Some "override") then
          match deserialize_text live (t_serialized file) with
          | Some loaded =>
              Done (set_registry (<[container_id := loaded]> (registry st)) st)
          | None => Raised DeserializeError
          end
        else if decide (material = Some "new") then
          let new := getNewId container_id st in
          match deserialize_text (new_container InstanceContainer new.1)
                  (t_serialized file) with
          | Some material_container =>
              Done (append_to_add material_container new.2)
          | None => Raised DeserializeError
          end
        else Done st
      else Done st
  end.

Definition load_materials `{Collaborators} (resolve_strategies : Strategies)
  (st : ReadState) (files : list TextEntry) : Outcome ReadState :=
  if xml_material_profile then foldM (load_material resolve_strategies) st files
  else Done st.

(** What the variable [instance_container] refers to at the end of a round:
    a registered container, or one built in this round. *)
Inductive Target :=
| Live (container_id : string)
| Fresh (c : Container).

(** A round's result: the container, how often the round appended it to
    [containers_to_add], and the state. *)
Definition Loaded : Type := Target * nat * ReadState.

(** The existing container takes the content of the file and is marked
    dirty. *)
Definition override_in_place `{Collaborators} (container_id : string)
  (live : Container) (serialized : Config) (st : ReadState) : Outcome Loaded :=
  match deserialize live serialized with
  | Some loaded =>
      Done (Live container_id, 0,
            set_registry (<[container_id := setDirty true loaded]> (registry st))
              st)
  | None => Raised DeserializeError
  end.

(** The branch for "user" containers.  With the strategy "new", the call
    for the machine identity names a method that the container class does
    not have ([setMetadataEntry]) and raises. *)
Definition load_user_container `{Collaborators} (resolve_strategies : Strategies)
  (plan : Plan) (file : Entry) (instance_container : Container)
  (st : ReadState) : Outcome Loaded :=
  match findInstanceContainers (registry st) (e_id file) with
  | None => Done (Fresh instance_container, 1, st)
  | Some live =>
      machine ← subscript resolve_strategies "machine";
      if decide (machine = Some "override" \/ machine = None) then
        override_in_place (e_id file) live (e_serialized file) st
      else if decide (machine = Some "new") then
        linked ←
          match getMetaDataEntry instance_container "extruder" with
          | Some old_extruder_id =>
              if truthy old_extruder_id then
                new_extruder_id ←
                  subscript (extruder_stack_id_map plan) old_extruder_id;
                let new_id := new_extruder_id +:+ "_current_settings" in
                Done (setMetaDataEntry "extruder" new_extruder_id
                        (setName new_id
                           (setMetaDataEntry "id" new_id instance_container)),
                      1)
              else Done (instance_container, 0)
          | None => Done (instance_container, 0)
          end;
        if truthy_opt (getMetaDataEntry linked.1 "machine")
        then Raised AttributeError
        else Done (Fresh linked.1, linked.2, st)
      else Done (Fresh instance_container, 0, st)
  end.

Definition relink_changes `{Collaborators} (plan : Plan) (c : Container)
  (st : ReadState) : Container * ReadState :=
  let c :=
    match getMetaDataEntry c "extruder" with
    | Some old_extruder_id =>
        if truthy old_extruder_id then
          match extruder_stack_id_map plan !! old_extruder_id with
          | Some new_extruder_id => setMetaDataEntry "extruder" new_extruder_id c
          | None => c
          end
        else c
    | None => c
    end in
  match getMetaDataEntry c "machine" with
  | Some machine_id =>
      if truthy machine_id then
        let new := getNewId machine_id st in
        (setMetaDataEntry "machine" new.1 c, new.2)
      else (c, st)
  | None => (c, st)
  end.

(** The branch for "quality_changes" and "definition_changes". *)
Definition load_changes_container `{Collaborators}
  (resolve_strategies : Strategies) (plan : Plan) (container_type : string)
  (file : Entry) (instance_container : Container) (st : ReadState)
  : Outcome Loaded :=
  match findInstanceContainers (registry st) (e_id file) with
  | None => Done (Fresh instance_container, 1, st)
  | Some live =>
      strategy ← subscript resolve_strategies container_type;
      if decide (strategy = Some "override") then
        override_in_place (e_id file) live (e_serialized file) st
      else if decide (strategy = Some "new") then
        let named :=
          setName (uniqueName (registry st) (c_name instance_container))
            instance_container in
        let new := getNewId (c_id named) st in
        let renamed := set_id new.1 named in
        machine ← subscript resolve_strategies "machine";
        if decide (machine = Some "new") then
          let relinked := relink_changes plan renamed new.2 in
          Done (Fresh relinked.1, 1, relinked.2)
        else Done (Fresh renamed, 1, new.2)
      else Done (Fresh instance_container, 0, st)
  end.

Definition ignored_instance_container_types : list string :=
  ["quality"; "variant"].

Definition relink_machine (plan : Plan) (c : Container) : Container :=
  if truthy_opt (getMetaDataEntry c "machine")
  then setMetaDataEntry "machine" (global_stack_id_new plan) c
  else c.

(** The end of a round: the machine link follows a renamed machine, on
    whatever [instance_container] refers to, and the appended container is
    the one so changed. *)
Definition finish_round (plan : Plan) (loaded : Loaded) : ReadState :=
  let st := loaded.2 in
  if global_stack_need_rename plan then
    match loaded.1.1 with
    | Live container_id =>
        set_registry (alter (relink_machine plan) container_id (registry st)) st
    | Fresh c =>
        mkState (registry st) (id_mapping st)
          (containers_to_add st ++ replicate loaded.1.2 (relink_machine plan c))
          (containers_added st)
    end
  else
    match loaded.1.1 with
    | Live _ => st
    | Fresh c =>
        mkState (registry st) (id_mapping st)
          (containers_to_add st ++ replicate loaded.1.2 c) (containers_added st)
    end.

Definition load_instance_container `{Collaborators}
  (resolve_strategies : Strategies) (plan : Plan) (st : ReadState)
  (file : Entry) : Outcome ReadState :=
  let parser := e_serialized file in
  if negb (has_option parser "metadata" "type") then Done st else
  declared_type ← config_subscript parser "metadata" "type";
  if bool_decide (declared_type ∈ ignored_instance_container_types)
  then Done st else
  match deserialize (new_container InstanceContainer (e_id file)) parser with
  | None => Raised DeserializeError
  | Some instance_container =>
      let container_type := getMetaDataEntry instance_container "type" in
      if bool_decide (Exists (fun t => container_type = Some t)
                        ignored_instance_container_types)
      then Done st
      else
        loaded ←
          (if decide (container_type = Some "user") then
             load_user_container resolve_strategies plan file
               instance_container st
           else if decide (container_type = Some "quality_changes") then
             load_changes_container resolve_strategies plan "quality_changes"
               file instance_container st
           else if decide (container_type = Some "definition_changes") then
             load_changes_container resolve_strategies plan "definition_changes"
               file instance_container st
           else
             match findInstanceContainers (registry st) (e_id file) with
             | Some _ => Done (Fresh instance_container, 0, st)
             | None => Done (Fresh instance_container, 1, st)
             end);
        Done (finish_round plan loaded)
  end.

(** The batch: each waiting container is added, marked dirty and recorded. *)
Definition commit_container (st : ReadState) (container : Container)
  : ReadState :=
  mkState (addContainer (setDirty true container) (registry st))
    (id_mapping st) (containers_to_add st)
    (containers_added st ++ [c_id container]).

(** *** The guarded blocks

    Inside a [try] the state reached when the exception is raised is what
    the handler sees. *)

Inductive Attempt (A : Type) :=
| Passed (a : A) (st : ReadState)
| Failed (e : Exception) (st : ReadState).

Arguments Passed {A} a st.
Arguments Failed {A} e st.

Fixpoint foldA {A B : Type} (f : A -> ReadState -> B -> Attempt A)
  (a : A) (st : ReadState) (l : list B) : Attempt A :=
  match l with
  | [] => Passed a st
  | b :: rest =>
      match f a st b with
      | Passed a' st' => foldA f a' st' rest
      | Failed e st' => Failed e st'
      end
  end.

Definition deref (reg : Registry) (t : Target) : Outcome Container :=
  match t with
  | Live container_id => follow reg container_id
  | Fresh c => Done c
  end.

Definition update (f : Container -> Container) (t : Target) (reg : Registry)
  : Target * Registry :=
  match t with
  | Live container_id => (Live container_id, alter f container_id reg)
  | Fresh c => (Fresh (f c), reg)
  end.

(** The object a call to [addContainer] was given, seen from the registry
    afterwards. *)
Definition added_target (before : Registry) (c : Container) : Target :=
  match before !! c_id c with
  | Some _ => Fresh c
  | None => Live (c_id c)
  end.

(** "Create a new definition_changes container if it was empty": the
    empty instance container is the one with the identity "empty". *)
Definition ensure_definition_changes `{Collaborators} (stack : Target)
  (st : ReadState) : Attempt Target :=
  match deref (registry st) stack with
  | Raised e => Failed e st
  | Done s =>
      match getContainer s ContainerIndexes_DefinitionChanges with
      | Raised e => Failed e st
      | Done occupant =>
          if decide (occupant = "empty") then
            let created :=
              createDefinitionChangesContainer (registry st) s
                (c_id s +:+ "_settings") in
            let changed :=
              update (replaceContainer ContainerIndexes_DefinitionChanges
                        (c_id created.2))
                stack created.1 in
            Passed changed.1 (set_registry changed.2 st)
          else Passed stack st
      end
  end.

(** "There is a machine, check if it has authentication data. If so, keep
    that data." *)
Definition keep_entry (key : string) (saved : option string)
  (stack : Container) : Container :=
  match saved with
  | Some value => if truthy value then addMetaDataEntry key value stack else stack
  | None => stack
  end.

Definition override_machine_stack `{Collaborators} (stack : Container)
  (serialized : Config) : option Container :=
  let network_authentication_id :=
    getMetaDataEntry stack "network_authentication_id" in
  let network_authentication_key :=
    getMetaDataEntry stack "network_authentication_key" in
  match deserialize stack serialized with
  | Some loaded =>
      Some (keep_entry "network_authentication_key" network_authentication_key
              (keep_entry "network_authentication_id" network_authentication_id
                 loaded))
  | None => None
  end.

Definition record_added (container_id : string) (reg : Registry)
  (st : ReadState) : ReadState :=
  mkState reg (id_mapping st) (containers_to_add st)
    (containers_added st ++ [container_id]).

Definition new_machine_stack `{Collaborators} (plan : Plan)
  (serialized : Config) : option Container :=
  match deserialize (new_container ContainerStack (global_stack_id_new plan))
          serialized with
  | Some loaded =>
      let stack := set_id (global_stack_id_new plan) loaded in
      let stack :=
        if truthy_opt (getMetaDataEntry stack "machine")
        then setMetaDataEntry "machine" (global_stack_id_new plan) stack
        else stack in
      Some (setName (global_stack_name_new plan) stack)
  | None => None
  end.

(** "load global stack file" *)
Definition load_global_stack `{Collaborators} (resolve_strategies : Strategies)
  (plan : Plan) (global_stack_file : Entry) (st : ReadState)
  : Attempt Target :=
  match resolve_strategies !! "machine" with
  | None => Failed KeyError st
  | Some machine =>
      if decide (machine = Some "override") then
        match findContainerStacks (registry st)
                (global_stack_id_original plan) with
        | None => Failed IndexError st
        | Some stack =>
            match override_machine_stack stack
                    (e_serialized global_stack_file) with
            | None => Failed DeserializeError st
            | Some loaded =>
                ensure_definition_changes
                  (Live (global_stack_id_original plan))
                  (set_registry
                     (<[global_stack_id_original plan := loaded]> (registry st))
                     st)
            end
        end
      else if decide (machine = Some "new") then
        match new_machine_stack plan (e_serialized global_stack_file) with
        | None => Failed DeserializeError st
        | Some stack =>
            ensure_definition_changes (added_target (registry st) stack)
              (record_added (c_id stack) (addContainer stack (registry st)) st)
        end
      else Failed AttributeError st
  end.

Fixpoint assoc_set {V : Type} (key : string) (v : V) (l : list (string * V))
  : list (string * V) :=
  match l with
  | [] => [(key, v)]
  | (k, w) :: rest =>
      if String.eqb k key then (k, v) :: rest
      else (k, w) :: assoc_set key v rest
  end.

(** [parser.set(section, option, value)]: the section must exist. *)
Definition config_set (parser : Config) (section option value : string)
  : Outcome Config :=
  match assoc section parser with
  | Some opts => Done (assoc_set section (assoc_set option value opts) parser)
  | None => Raised KeyError
  end.

(** [_overrideExtruderStack]: [None] when the machine has no extruder at
    the position of the file. *)
Definition overrideExtruderStack `{Collaborators} (global_stack : Container)
  (extruder_stack_file : Entry) (st : ReadState) : Attempt (option Target) :=
  let extruder_config := e_serialized extruder_stack_file in
  if negb (has_option extruder_config "metadata" "position")
  then Failed RuntimeError st
  else
    match config_subscript extruder_config "metadata" "position" with
    | Raised e => Failed e st
    | Done extruder_position =>
        match c_extruders global_stack !! extruder_position with
        | None => Passed None st
        | Some extruder_id =>
            match follow (registry st) extruder_id with
            | Raised e => Failed e st
            | Done extruder_stack =>
                match deserialize extruder_stack extruder_config with
                | None => Failed DeserializeError st
                | Some loaded =>
                    Passed (Some (Live extruder_id))
                      (set_registry (<[extruder_id := loaded]> (registry st)) st)
                end
            end
        end
    end.

Definition new_extruder_stack `{Collaborators} (plan : Plan)
  (extruder_stack_file : Entry) (st : ReadState) : Attempt (option Target) :=
  match subscript (extruder_stack_id_map plan) (e_id extruder_stack_file) with
  | Raised e => Failed e st
  | Done new_id =>
      match config_set (e_serialized extruder_stack_file) "metadata" "machine"
              (global_stack_id_new plan) with
      | Raised e => Failed e st
      | Done extruder_file_content =>
          match deserialize (new_container ContainerStack new_id)
                  extruder_file_content with
          | None => Failed DeserializeError st
          | Some loaded =>
              let stack := set_id new_id loaded in
              Passed (Some (added_target (registry st) stack))
                (record_added (c_id stack) (addContainer stack (registry st)) st)
          end
      end
  end.

(** One round of "load extruder stack files".  The loop state is the
    variable [stack] and the list [extruder_stacks]. *)
Definition load_extruder_stack `{Collaborators} (resolve_strategies : Strategies)
  (plan : Plan) (global_stack : Target)
  (vars : option Target * list Target) (st : ReadState)
  (extruder_stack_file : Entry) : Attempt (option Target * list Target) :=
  match resolve_strategies !! "machine" with
  | None => Failed KeyError st
  | Some machine =>
      let chosen : Attempt (option Target) :=
        if decide (machine = Some "override") then
          match deref (registry st) global_stack with
          | Raised e => Failed e st
          | Done g => overrideExtruderStack g extruder_stack_file st
          end
        else if decide (machine = Some "new") then
          new_extruder_stack plan extruder_stack_file st
        else
          match vars.1 with
          | Some stack => Passed (Some stack) st
          | None => Failed AttributeError st
          end in
      match chosen with
      | Failed e st' => Failed e st'
      | Passed None st' => Passed (None, vars.2) st'
      | Passed (Some stack) st' =>
          match ensure_definition_changes stack st' with
          | Failed e st'' => Failed e st''
          | Passed stack' st'' =>
              match deref (registry st'') stack' with
              | Raised e => Failed e st''
              | Done s =>
                  if decide (getMetaDataEntry s "type" = Some "extruder_train")
                  then Passed (Some stack', vars.2 ++ [stack']) st''
                  else Passed (Some stack', vars.2) st''
              end
          end
      end
  end.

(** One round of the slot-by-slot replacement of an existing extruder
    stack by the slots of the created one. *)
Definition replace_slot (created : Container) (existing_id : string)
  (u : unit) (st : ReadState) (idx : nat) : Attempt unit :=
  match getContainer created idx with
  | Raised e => Failed e st
  | Done occupant =>
      Passed tt
        (set_registry
           (alter (replaceContainer idx occupant) existing_id (registry st)) st)
  end.

(** "If not extruder stacks were saved in the project file (pre 3.1) create
    one manually". *)
Definition single_extrusion_stack `{Collaborators}
  (resolve_strategies : Strategies) (global_stack : Target) (st : ReadState)
  : Attempt (list Target) :=
  match deref (registry st) global_stack with
  | Raised e => Failed e st
  | Done g =>
      let created :=
        addExtruderStackForSingleExtrusionMachine (registry st) g "fdmextruder" in
      let st := set_registry created.1 st in
      match created.2 with
      | None => Passed [] st
      | Some stack =>
          match resolve_strategies !! "machine" with
          | None => Failed KeyError st
          | Some machine =>
              if decide (machine = Some "override") then
                match deref (registry st) global_stack with
                | Raised e => Failed e st
                | Done g' =>
                    match getMetaDataEntry stack "position" with
                    | None => Failed KeyError st
                    | Some position =>
                        match c_extruders g' !! position with
                        | None => Failed KeyError st
                        | Some existing_id =>
                            match foldA (replace_slot stack existing_id) tt st
                                    (seq 0 ContainerIndexes_count) with
                            | Failed e st' => Failed e st'
                            | Passed _ st' => Passed [Live existing_id] st'
                            end
                        end
                    end
                end
              else Passed [Fresh stack] st
          end
      end
  end.

(** "load extruder stack files" *)
Definition load_extruder_stacks `{Collaborators} (resolve_strategies : Strategies)
  (plan : Plan) (global_stack : Target) (extruder_stack_files : list Entry)
  (st : ReadState) : Attempt (list Target) :=
  match foldA (load_extruder_stack resolve_strategies plan global_stack)
          (Some global_stack, []) st extruder_stack_files with
  | Failed e st' => Failed e st'
  | Passed vars st' =>
      match vars.2 with
      | [] => single_extrusion_stack resolve_strategies global_stack st'
      | _ => Passed vars.2 st'
      end
  end.

(** The handler: "Something went really wrong. Try to remove any data that
    we added." *)
Definition clean_up (st : ReadState) : Registry :=
  foldl (fun reg container_id => removeContainer container_id reg)
    (registry st) (containers_added st).

Inductive ReadResult :=
| Completed (global_stack : Target) (extruder_stacks : list Target)
    (st : ReadState)
| CleanedUp (reg : Registry) (removed : list string)
| Propagated (e : Exception).

(** Everything before the first [try]. *)
Definition prepare `{Collaborators} (resolve_strategies : Strategies)
  (archive : Archive) (reg : Registry)
  : Outcome (Plan * (Entry * list Entry) * ReadState) :=
  if negb (has_preferences archive) then Raised KeyError else
  stack_files ← determineGlobalAndExtruderStackFiles archive;
  planned ← prepare_ids resolve_strategies stack_files.1 stack_files.2
    (mkState reg ∅ [] []);
  st ← foldM load_definition planned.2 (definition_container_files archive);
  st ← load_materials resolve_strategies st (material_container_files archive);
  st ← foldM (load_instance_container resolve_strategies planned.1) st
    (instance_container_files archive);
  Done (planned.1, stack_files, foldl commit_container st (containers_to_add st)).

(** [read] up to the end of the second [try].  What follows it in the
    source, the repair of the quality profiles and the notifications, runs
    only after both blocks have passed. *)
Definition read `{Collaborators} (resolve_strategies : Strategies)
  (archive : Archive) (reg : Registry) : ReadResult :=
  match prepare resolve_strategies archive reg with
  | Raised e => Propagated e
  | Done prepared =>
      let plan := prepared.1.1 in
      let stack_files := prepared.1.2 in
      match load_global_stack resolve_strategies plan stack_files.1
              prepared.2 with
      | Failed _ st => CleanedUp (clean_up st) (containers_added st)
      | Passed global_stack st =>
          match load_extruder_stacks resolve_strategies plan global_stack
                  stack_files.2 st with
          | Failed _ st' => CleanedUp (clean_up st') (containers_added st')
          | Passed extruder_stacks st' =>
              Completed global_stack extruder_stacks st'
          end
      end
  end.

(** ** Vocabulary of the statements *)

(** [p] is an exact prefix of [s]. *)
Definition exact_prefix (p s : string) : Prop := exists rest, s = p +:+ rest.

(** [best] is, among [keys], a prefix of [s] that no other prefix of [s]
    among them exceeds in length. *)
Definition longest_prefix_among (keys : list string) (s best : string) : Prop :=
  best ∈ keys /\ exact_prefix best s /\
  forall k, k ∈ keys -> exact_prefix k s -> String.length k <= String.length best.

(** What the loop has established after the parents in [seen]. *)
Definition prefix_invariant (s : string) (seen : list string)
  (best : option string * Z) : Prop :=
  match best.1 with
  | None =>
      best.2 = (-1)%Z /\ forall k, k ∈ seen -> ~ exact_prefix k s
  | Some b =>
      best.2 = Z.of_nat (String.length b) /\ longest_prefix_among seen s b
  end.

(** Slot [index] of [stack] holds what the file lists there, the old empty
    identities taken as "empty". *)
Definition slot_matches (stack : Container) (index : nat)
  (container_id : string) : Prop :=
  c_containers stack !! index = Some (old_empty_profile_id container_id).

(** [i] is the first index at which [stack] holds something else than the
    file lists. *)
Definition first_mismatch (stack : Container) (id_list : list string)
  (i : nat) : Prop :=
  (exists container_id occupant,
     id_list !! i = Some container_id /\
     c_containers stack !! i = Some occupant /\
     occupant <> old_empty_profile_id container_id) /\
  forall j container_id,
    j < i -> id_list !! j = Some container_id ->
    slot_matches stack j container_id.

(** The extruder file declares a position that the machine does not have. *)
Definition position_absent (global_stack : Container) (file : Entry) : Prop :=
  exists position,
    config_subscript (e_serialized file) "metadata" "position" = Done position /\
    c_extruders global_stack !! position = None.

(** The extruder file declares a position that the machine has, and the
    comparison of its slots with the extruder there comes to an end. *)
Definition extruder_checked (reg : Registry) (global_stack : Container)
  (file : Entry) : Prop :=
  exists position extruder_id existing differs,
    config_subscript (e_serialized file) "metadata" "position" = Done position /\
    c_extruders global_stack !! position = Some extruder_id /\
    reg !! extruder_id = Some existing /\
    slots_differ existing 0
      (getContainerIdListFromSerialized (e_serialized file)) = Done differs.

(** The file is an instance container of type [container_type], which
    deserializes to [imported]. *)
Definition imported_profile `{Collaborators} (file : Entry)
  (container_type : string) (imported : Container) : Prop :=
  deserialize (new_container InstanceContainer (e_id file)) (e_serialized file)
    = Some imported /\
  getMetaDataEntry imported "type" = Some container_type.

(** A registered instance container has the identity of the imported
    profile. *)
Definition changes_exists `{Collaborators} (reg : Registry)
  (container_type : string) (file : Entry) : Prop :=
  exists imported live,
    imported_profile file container_type imported /\
    findInstanceContainers reg (e_id file) = Some live.

(** ... and compares unequal to it. *)
Definition changes_conflict `{Collaborators} (reg : Registry)
  (container_type : string) (file : Entry) : Prop :=
  exists imported live,
    imported_profile file container_type imported /\
    findInstanceContainers reg (e_id file) = Some live /\
    container_ne live imported = true.

(** The conflict flag of a type of changes container, in the loop and in
    the report. *)
Definition scan_conflict (container_type : string) (st : InstanceScan) : bool :=
  if decide (container_type = "quality_changes")
  then scan_quality_changes_conflict st
  else scan_definition_changes_conflict st.

Definition report_conflict (container_type : string) (report : ConflictReport)
  : bool :=
  if decide (container_type = "quality_changes")
  then quality_changes_conflict report
  else definition_changes_conflict report.

Definition changes_type (container_type : string) : Prop :=
  container_type = "quality_changes" \/ container_type = "definition_changes".

(** A registered container has the identity of the material file. *)
Definition material_exists (reg : Registry) (file : TextEntry) : Prop :=
  is_Some (findContainers reg (t_id file)).


(** The state in which a guarded block ends, and what it means that the
    block has kept the record of added containers and only extended it. *)
Definition attempt_state {A : Type} (r : Attempt A) : ReadState :=
  match r with
  | Passed _ st => st
  | Failed _ st => st
  end.

Definition record_kept {A : Type} (st : ReadState) (r : Attempt A) : Prop :=
  containers_added st `prefix_of` containers_added (attempt_state r).

(** The type that a stack file states in its metadata. *)
Definition stack_type_is (stack_type : string) (file : Entry) : Prop :=
  config_subscript (e_serialized file) "metadata" "type" = Done stack_type.

#[global] Instance stack_type_is_dec (stack_type : string) (file : Entry) :
  Decision (stack_type_is stack_type file).
Proof. unfold stack_type_is. apply _. Defined.

(** The definition container that the inspection looks at for a definition
    file: the registered one if there is one, else the deserialized file;
    and the type it has. *)
Definition seen_definition `{Collaborators} (reg : Registry) (file : TextEntry)
  : option Container :=
  match findDefinitionContainers reg (t_id file) with
  | Some live => Some live
  | None =>
      deserialize_text (new_container DefinitionContainer (t_id file))
        (t_serialized file)
  end.

Definition definition_type_is `{Collaborators} (reg : Registry)
  (definition_type : string) (file : TextEntry) : Prop :=
  exists c,
    seen_definition reg file = Some c /\
    getMetaDataEntry c "type" = Some definition_type.

#[global] Instance definition_type_is_dec `{Collaborators} (reg : Registry)
  (definition_type : string) (file : TextEntry) :
  Decision (definition_type_is reg definition_type file).
Proof.
  unfold definition_type_is.
  destruct (seen_definition reg file) as [c|].
  - destruct (decide (getMetaDataEntry c "type" = Some definition_type)).
    + left. by exists c.
    + right. intros (c' & [= <-] & ?). done.
  - right. by intros (c' & [=] & _).
Defined.

(** The extruder file declares a position that the machine has, and the
    extruder stack there holds something else than the file lists. *)
Definition extruder_differs (reg : Registry) (global_stack : Container)
  (file : Entry) : Prop :=
  exists position extruder_id existing,
    config_subscript (e_serialized file) "metadata" "position" = Done position /\
    c_extruders global_stack !! position = Some extruder_id /\
    reg !! extruder_id = Some existing /\
    slots_differ existing 0
      (getContainerIdListFromSerialized (e_serialized file)) = Done true.


(** An instance container file that the write pass passes over: its
    metadata state no type, or one of the ignored types. *)
Definition passed_over (file : Entry) : Prop :=
  match config_subscript (e_serialized file) "metadata" "type" with
  | Done declared_type => declared_type ∈ ignored_instance_container_types
  | Raised _ => True
  end.

#[global] Instance passed_over_dec (file : Entry) : Decision (passed_over file).
Proof. unfold passed_over. destruct (config_subscript _ _ _); apply _. Defined.

(** The identity of the stack that a target stands for. *)
Definition target_id (t : Target) : string :=
  match t with
  | Live container_id => container_id
  | Fresh c => c_id c
  end.

(** ** A concrete setting

    Collaborators simple enough to run: [deserialize] loads name, metadata,
    values and slots from the sections of the file over what the container
    held and raises when the file states no version; the text of a
    definition or material file is taken as its type. *)

Module Sample.

Definition sample_deserialize (c : Container) (serialized : Config)
  : option Container :=
  match assoc "general" serialized with
  | None => None
  | Some general =>
      match assoc "version" general with
      | None => None
      | Some _ =>
          Some (mkContainer (c_kind c) (c_id c)
                  (default (c_id c) (assoc "name" general))
                  (list_to_map (default [] (assoc "metadata" serialized)))
                  (list_to_map (default [] (assoc "values" serialized)))
                  (getContainerIdListFromSerialized serialized)
                  (c_extruders c) (c_read_only c) (c_dirty c))
      end
  end.

Definition sample_deserialize_text (c : Container) (serialized : string)
  : option Container :=
  Some (mkContainer (c_kind c) (c_id c) (c_name c) {["type" := serialized]}
          ∅ (c_containers c) (c_extruders c) (c_read_only c) (c_dirty c)).

Definition sample_container_ne (a b : Container) : bool :=
  negb (bool_decide (c_instances a = c_instances b)).

Definition sample_createDefinitionChangesContainer (reg : Registry)
  (stack : Container) (name : string) : Registry * Container :=
  let c := setMetaDataEntry "type" "definition_changes"
             (new_container InstanceContainer name) in
  (addContainer c reg, c).

#[global] Instance sample_collaborators : Collaborators := {
  uniqueName := fun _ name => name +:+ " #2";
  deserialize := sample_deserialize;
  deserialize_text := sample_deserialize_text;
  container_ne := sample_container_ne;
  createDefinitionChangesContainer := sample_createDefinitionChangesContainer;
  addExtruderStackForSingleExtrusionMachine := fun reg _ _ => (reg, None);
  xml_material_profile := true;
  ContainerIndexes_Material := 3;
}.

(** A legacy stack file: six slots in one comma-separated option. *)
Definition legacy_stack_file : Config :=
  [("general",
    [("version", "3"); ("name", "My Printer");
     ("containers",
      "machine_1_user,empty,normal,empty_material,empty_variant,ultimaker3")]);
   ("metadata", [("type", "machine")])].

(** Two parent materials, one a prefix of the other, both given a new
    identity, and a stack that uses a child of the longer one. *)
Definition pla_dict : list (string * Container) :=
  [("PLA", new_container InstanceContainer "PLA #2");
   ("PLA Premium", new_container InstanceContainer "PLA Premium #2")].

Definition pla_stack : Container :=
  set_containers
    ["user"; "empty_quality_changes"; "normal"; "PLA Premium_um3_aa04"; "aa04";
     "settings"; "um3"]
    (new_container ContainerStack "extruder_1").

Definition pla_registry : Registry :=
  {["PLA Premium #2_um3_aa04" :=
      setMetaDataEntry "type" "material"
        (new_container InstanceContainer "PLA Premium #2_um3_aa04")]}.

(** A registered machine with one extruder at position "0". *)
Definition machine_1 : Container :=
  mkContainer ContainerStack "machine_1" "My Printer"
    {["type" := "machine"]} ∅
    ["machine_1_user"; "empty"; "normal"; "empty"; "empty"; "empty";
     "ultimaker3"]
    {["0" := "extruder_1"]} false false.

Definition extruder_1 : Container :=
  mkContainer ContainerStack "extruder_1" "Extruder 1"
    {["type" := "extruder_train"; "position" := "0"]} ∅
    ["extruder_1_user"; "empty"; "normal"; "generic_pla"; "aa04"; "empty";
     "ultimaker3_extruder_left"]
    ∅ false false.

Definition machine_registry : Registry :=
  {["machine_1" := machine_1; "extruder_1" := extruder_1]}.

Definition machine_1_file : Entry := mkEntry "machine_1" legacy_stack_file.

(** An extruder file for position "0" with another material than the
    registered extruder has, and one for a position "1". *)
Definition extruder_0_file : Entry :=
  mkEntry "extruder_1"
    [("general", [("version", "3"); ("name", "Extruder 1")]);
     ("metadata", [("type", "extruder_train"); ("position", "0")]);
     ("containers",
      [("0", "extruder_1_user"); ("1", "empty"); ("2", "normal");
       ("3", "generic_abs"); ("4", "aa04"); ("5", "empty");
       ("6", "ultimaker3_extruder_left")])].

Definition extruder_1_file : Entry :=
  mkEntry "extruder_2"
    [("general", [("version", "3"); ("name", "Extruder 2")]);
     ("metadata", [("type", "extruder_train"); ("position", "1")]);
     ("containers",
      [("0", "extruder_2_user"); ("1", "empty"); ("2", "normal");
       ("3", "generic_pla"); ("4", "aa04"); ("5", "empty");
       ("6", "ultimaker3_extruder_right")])].

(** A project for that machine: its definition, a material, a profile of
    quality changes and the user settings of the machine. *)
Definition my_profile_file : Entry :=
  mkEntry "my_profile"
    [("general", [("version", "2"); ("name", "My Profile")]);
     ("metadata", [("type", "quality_changes"); ("quality_type", "normal")]);
     ("values", [("layer_height", "0.2")])].

Definition machine_1_user_file : Entry :=
  mkEntry "machine_1_user"
    [("general", [("version", "2"); ("name", "machine_1_user")]);
     ("metadata", [("type", "user"); ("machine", "machine_1")]);
     ("values", [("infill_sparse_density", "30")])].

Definition project : Archive :=
  mkArchive
    [mkTextEntry "ultimaker3" "machine"]
    [mkTextEntry "generic_pla" "material"; mkTextEntry "generic_abs" "material"]
    [my_profile_file; machine_1_user_file]
    [machine_1_file] [extruder_0_file] [] true.

(** The registry holds the machine, a profile "my_profile" with another
    layer height, the user settings, a material of the user and a material
    that is read-only. *)
Definition my_profile : Container :=
  mkContainer InstanceContainer "my_profile" "My Profile"
    {["type" := "quality_changes"; "quality_type" := "normal"]}
    {["layer_height" := "0.1"]} [] ∅ false false.

Definition machine_1_user : Container :=
  mkContainer InstanceContainer "machine_1_user" "machine_1_user"
    {["type" := "user"; "machine" := "machine_1"]} ∅ [] ∅ false false.

Definition generic_pla : Container :=
  mkContainer InstanceContainer "generic_pla" "PLA"
    {["type" := "material"; "brand" := "Generic"]} ∅ [] ∅ false false.

Definition generic_abs : Container :=
  mkContainer InstanceContainer "generic_abs" "ABS"
    {["type" := "material"; "brand" := "Generic"]} ∅ [] ∅ true false.

Definition project_registry : Registry :=
  {["machine_1" := machine_1; "extruder_1" := extruder_1;
    "my_profile" := my_profile; "machine_1_user" := machine_1_user;
    "generic_pla" := generic_pla; "generic_abs" := generic_abs]}.

(** A dialog that leaves the machine and the quality changes undecided
    and asks for new materials. *)
Definition undecided_machine (report : ConflictReport) : Strategies :=
  {["machine" := None; "material" := Some "new"; "quality_changes" := None]}.

(** Strategies before any decision, as [preRead] leaves them when no
    dialog is shown. *)
Definition undecided : Strategies :=
  {["machine" := None; "material" := None; "quality_changes" := None]}.

(** The machine after it was paired over the network: an identifier, and
    a key that is empty. *)
Definition machine_1_paired : Container :=
  mkContainer ContainerStack "machine_1" "My Printer"
    {["type" := "machine"; "network_authentication_id" := "id-1234";
      "network_authentication_key" := ""]} ∅
    ["machine_1_user"; "empty"; "normal"; "empty"; "empty"; "empty";
     "ultimaker3"]
    {["0" := "extruder_1"]} false false.

Definition paired_registry : Registry :=
  <["machine_1" := machine_1_paired]> project_registry.

Definition override_machine : Strategies :=
  {["machine" := Some "override"; "material" := None;
    "quality_changes" := None]}.

(** A project that holds nothing but its machine. *)
Definition machine_only : Archive :=
  mkArchive [] [] [] [machine_1_file] [] [] true.

(** A project whose machine file states no version, so that loading it
    fails, after a definition, a material and new user settings. *)
Definition broken_machine_file : Entry :=
  mkEntry "machine_1"
    [("general", [("name", "My Printer")]);
     ("metadata", [("type", "machine")]);
     ("containers",
      [("0", "machine_1_user"); ("1", "empty"); ("2", "normal");
       ("3", "empty"); ("4", "empty"); ("5", "empty"); ("6", "ultimaker3")])].

Definition new_user_file : Entry :=
  mkEntry "new_user"
    [("general", [("version", "2"); ("name", "new_user")]);
     ("metadata", [("type", "user")]);
     ("values", [("wall_thickness", "1.2")])].

Definition broken_project : Archive :=
  mkArchive
    [mkTextEntry "ultimaker3" "machine"]
    [mkTextEntry "generic_pla" "material"]
    [new_user_file]
    [broken_machine_file] [] [] true.

Definition override_all : Strategies :=
  {["machine" := Some "override"; "material" := Some "override";
    "quality_changes" := Some "override"]}.

(** An archive of the old kind: every stack has the suffix of a container
    stack, and one of them is of a type that is not known. *)
Definition unknown_stack_file : Entry :=
  mkEntry "something"
    [("general", [("version", "3"); ("name", "Something")]);
     ("metadata", [("type", "quality")])].

Definition untyped_stack_file : Entry :=
  mkEntry "untyped" [("general", [("version", "3"); ("name", "Untyped")])].

Definition old_project : Archive :=
  mkArchive [] [] [] [] []
    [extruder_0_file; unknown_stack_file; machine_1_file; untyped_stack_file;
     extruder_1_file]
    true.


Definition machine_2_file : Entry := mkEntry "machine_2" legacy_stack_file.

Definition other_machine_project : Archive :=
  mkArchive [mkTextEntry "ultimaker3" "machine"] [] []
    [machine_2_file] [extruder_0_file] [] true.

(** A stack file that lists an eighth slot. *)
Definition eight_slots : list string :=
  ["machine_1_user"; "empty"; "normal"; "empty_material"; "empty_variant";
   "empty"; "ultimaker3"; "one_more"].

(** An extruder file for position "0" that lists what the registered
    extruder holds. *)
Definition extruder_0_same_file : Entry :=
  mkEntry "extruder_1"
    [("general", [("version", "3"); ("name", "Extruder 1")]);
     ("metadata", [("type", "extruder_train"); ("position", "0")]);
     ("containers",
      [("0", "extruder_1_user"); ("1", "empty"); ("2", "normal");
       ("3", "generic_pla"); ("4", "aa04"); ("5", "empty");
       ("6", "ultimaker3_extruder_left")])].

(** A stack file of the oldest kind with stray commas, and one that has
    both the option and the section. *)
Definition stray_commas_file : Config :=
  [("general",
    [("version", "3"); ("name", "Old"); ("containers", ",user,,quality,")])].


(** Strategies that ask for everything anew, and a quality profile. *)
Definition all_new : Strategies :=
  {["machine" := Some "new"; "material" := Some "new";
    "quality_changes" := Some "new"]}.

Definition normal_quality_file : Entry :=
  mkEntry "normal"
    [("general", [("version", "2"); ("name", "Normal")]);
     ("metadata", [("type", "quality"); ("quality_type", "normal")]);
     ("values", [("layer_height", "0.15")])].

End Sample.

(** * Properties *)

(** ** Strings and lists *)

Lemma py_insert_length {A : Type} (i : nat) (x : A) (l : list A) :
  i <= List.length l -> List.length (py_insert i x l) = S (List.length l).
Proof.
  intros Hi. unfold py_insert.
  rewrite length_app. cbn [List.length]. rewrite length_take, length_drop. lia.
Qed.

Lemma py_insert_lookup_lt {A : Type} (i j : nat) (x : A) (l : list A) :
  j < i -> i <= List.length l -> py_insert i x l !! j = l !! j.
Proof.
  intros Hj Hi. unfold py_insert.
  rewrite lookup_app_l by (rewrite length_take; lia).
  by rewrite lookup_take_lt.
Qed.

Lemma py_insert_lookup_eq {A : Type} (i : nat) (x : A) (l : list A) :
  i <= List.length l -> py_insert i x l !! i = Some x.
Proof.
  intros Hi. unfold py_insert.
  rewrite lookup_app_r by (rewrite length_take; lia).
  rewrite length_take. replace (i - i `min` List.length l) with 0 by lia. done.
Qed.

Lemma py_insert_lookup_gt {A : Type} (i j : nat) (x : A) (l : list A) :
  i <= j -> i <= List.length l -> py_insert i x l !! S j = l !! j.
Proof.
  intros Hj Hi. unfold py_insert.
  rewrite lookup_app_r by (rewrite length_take; lia).
  rewrite length_take. replace (S j - i `min` List.length l) with (S (j - i)) by lia.
  change ((x :: drop i l) !! S (j - i)) with (drop i l !! (j - i)).
  rewrite lookup_drop. f_equal. lia.
Qed.

Lemma py_insert_erase {A : Type} (i : nat) (x : A) (l : list A) :
  i <= List.length l ->
  take i (py_insert i x l) ++ drop (S i) (py_insert i x l) = l.
Proof.
  intros Hi. unfold py_insert.
  rewrite take_app_le by (rewrite length_take; lia).
  rewrite take_take. replace (i `min` i) with i by lia.
  rewrite drop_app_ge by (rewrite length_take; lia).
  rewrite length_take. replace (S i - i `min` List.length l) with 1 by lia.
  cbn. rewrite drop_0. apply take_drop.
Qed.

(** ** C9: the legacy six-slot layout *)

(** C9.  When the identities listed in a serialized stack are exactly six,
    [_getContainerIdListFromSerialized] returns seven: "empty" at index 5,
    the entries 0 to 4 where they were, the old entry 5 at index 6, and the
    six of them in their order once index 5 is taken out again. *)
Theorem legacy_slot_upgrade (serialized : Config) :
  List.length (parse_container_ids serialized) = 6 ->
  let container_ids := getContainerIdListFromSerialized serialized in
  List.length container_ids = 7 /\
  container_ids !! 5 = Some "empty" /\
  (forall i, i < 5 -> container_ids !! i = parse_container_ids serialized !! i) /\
  container_ids !! 6 = parse_container_ids serialized !! 5 /\
  take 5 container_ids ++ drop 6 container_ids = parse_container_ids serialized.
Proof.
  intros Hlen. unfold getContainerIdListFromSerialized.
  rewrite Hlen. cbn [Nat.eqb]. cbv zeta.
  split; [rewrite py_insert_length; lia|].
  split; [apply py_insert_lookup_eq; lia|].
  split; [intros i Hi; apply py_insert_lookup_lt; lia|].
  split; [apply (py_insert_lookup_gt 5 5); lia|].
  apply (py_insert_erase 5); lia.
Qed.

Lemma legacy_slot_upgrade_witness :
  getContainerIdListFromSerialized Sample.legacy_stack_file =
    ["machine_1_user"; "empty"; "normal"; "empty_material"; "empty_variant";
     "empty"; "ultimaker3"] /\
  List.length (getContainerIdListFromSerialized Sample.legacy_stack_file) = 7.
Proof.
  split; [reflexivity|].
  apply (legacy_slot_upgrade Sample.legacy_stack_file). reflexivity.
Defined.

(** ** C8: the longest matching parent material *)

Lemma substring_whole (s : string) : substring 0 (String.length s) s = s.
Proof. induction s as [|c s IH]; cbn; [done | by rewrite IH]. Qed.

Lemma slice_to_app (p rest : string) :
  slice_to (String.length p) (p +:+ rest) = p.
Proof.
  unfold slice_to. induction p as [|c p IH]; simpl.
  - by destruct rest.
  - f_equal. exact IH.
Qed.

Lemma length_app_string (p rest : string) :
  String.length (p +:+ rest) = String.length p + String.length rest.
Proof. induction p as [|c p IH]; simpl; [done | f_equal; exact IH]. Qed.

Lemma slice_from_app (p rest : string) :
  slice_from (String.length p) (p +:+ rest) = rest.
Proof.
  unfold slice_from. rewrite length_app_string.
  replace (String.length p + String.length rest - String.length p)
    with (String.length rest) by lia.
  induction p as [|c p IH]; simpl; [apply substring_whole | exact IH].
Qed.

Lemma slice_to_exact_prefix (p s : string) :
  slice_to (String.length p) s = p -> exact_prefix p s.
Proof.
  unfold slice_to. revert s. induction p as [|c p IH]; intros s Hs.
  - by exists s.
  - destruct s as [|c' s]; cbn in Hs; [done|].
    injection Hs as -> Hs. destruct (IH s Hs) as [rest ->]. by exists rest.
Qed.

Lemma exact_prefix_length (p s : string) :
  exact_prefix p s -> String.length p <= String.length s.
Proof. intros [rest ->]. rewrite length_app_string. lia. Qed.

(** The test of the loop body is the prefix relation. *)
Lemma prefix_test (p s : string) :
  Nat.leb (String.length p) (String.length s) &&
    String.eqb p (slice_to (String.length p) s) = true <->
  exact_prefix p s.
Proof.
  split.
  - intros [_ Heq]%andb_prop. apply String.eqb_eq in Heq.
    by apply slice_to_exact_prefix.
  - intros Hp. apply andb_true_intro. split.
    + apply Nat.leb_le. by apply exact_prefix_length.
    + destruct Hp as [rest ->]. rewrite slice_to_app. apply String.eqb_refl.
Qed.

Lemma exact_prefix_same_length (a b s : string) :
  exact_prefix a s -> exact_prefix b s ->
  String.length a = String.length b -> a = b.
Proof.
  intros [ra Ha] [rb Hb] Hlen.
  rewrite <- (slice_to_app a ra), <- (slice_to_app b rb).
  by rewrite <- Ha, <- Hb, Hlen.
Qed.

Lemma prefix_step_invariant (s : string) (seen : list string)
  (best : option string * Z) (k : string) :
  prefix_invariant s seen best ->
  prefix_invariant s (seen ++ [k]) (prefix_step s best k).
Proof.
  intros Hinv. unfold prefix_step.
  destruct best as [b len]. unfold prefix_invariant in *. cbn [fst snd] in *.
  destruct (Z.ltb_spec (Z.of_nat (String.length k)) len) as [Hlt|Hge].
  - (* shorter than the best so far: skipped *)
    cbn [fst snd]. destruct b as [b|].
    + destruct Hinv as [-> (Hin & Hpre & Hmax)]. split; [done|].
      split; [set_solver|]. split; [done|].
      intros k' [Hk'| ->%list_elem_of_singleton]%elem_of_app Hp; [by apply Hmax | lia].
    + destruct Hinv as [-> _]. lia.
  - destruct (Nat.leb (String.length k) (String.length s) &&
              String.eqb k (slice_to (String.length k) s)) eqn:Htest.
    + apply andb_prop in Htest as [Hle Heq]. rewrite Hle, Heq. cbn [fst snd].
      assert (exact_prefix k s) as Hk
        by (apply prefix_test; by rewrite Hle, Heq).
      split; [done|]. split; [set_solver|]. split; [done|].
      intros k' [Hk'| ->%list_elem_of_singleton]%elem_of_app Hp; [|lia].
      destruct b as [b|].
      * destruct Hinv as [-> (_ & _ & Hmax)]. specialize (Hmax k' Hk' Hp). lia.
      * destruct Hinv as [_ Hnone]. by destruct (Hnone k' Hk').
    + assert (~ exact_prefix k s) as Hk
        by (rewrite <- prefix_test; by rewrite Htest).
      assert ((if Nat.leb (String.length k) (String.length s)
               then if String.eqb k (slice_to (String.length k) s)
                    then (Some k, Z.of_nat (String.length k)) else (b, len)
               else (b, len)) = (b, len)) as ->.
      { destruct (Nat.leb _ _); [|done]. cbn in Htest. by rewrite Htest. }
      cbn [fst snd]. destruct b as [b|].
      * destruct Hinv as [-> (Hin & Hpre & Hmax)]. split; [done|].
        split; [set_solver|]. split; [done|].
        intros k' [Hk'| ->%list_elem_of_singleton]%elem_of_app Hp;
          [by apply Hmax | done].
      * destruct Hinv as [-> Hnone]. split; [done|].
        intros k' [Hk'| ->%list_elem_of_singleton]%elem_of_app; [by apply Hnone | done].
Qed.

Lemma prefix_loop_invariant (s : string) (keys seen : list string)
  (best : option string * Z) :
  prefix_invariant s seen best ->
  prefix_invariant s (seen ++ keys) (foldl (prefix_step s) best keys).
Proof.
  revert seen best. induction keys as [|k keys IH]; intros seen best Hinv.
  - by rewrite app_nil_r.
  - cbn [foldl]. replace (seen ++ k :: keys) with ((seen ++ [k]) ++ keys)
      by (by rewrite <- app_assoc).
    apply IH. by apply prefix_step_invariant.
Qed.

Lemma best_matching_invariant (s : string) (keys : list string) :
  prefix_invariant s keys
    (foldl (prefix_step s) (None, (-1)%Z) keys).
Proof.
  apply (prefix_loop_invariant s keys []). split; [done|]. set_solver.
Qed.

Lemma best_matching_some (s : string) (keys : list string) (best : string) :
  best_matching_old_material_id s keys = Some best <->
  longest_prefix_among keys s best.
Proof.
  unfold best_matching_old_material_id.
  pose proof (best_matching_invariant s keys) as Hinv.
  unfold prefix_invariant in Hinv.
  destruct (foldl (prefix_step s) (None, (-1)%Z) keys) as [[b|] len];
    cbn [fst snd] in *.
  - destruct Hinv as [_ Hb]. split.
    + by intros [= <-].
    + intros Hbest. f_equal.
      destruct Hb as (Hin & Hpre & Hmax), Hbest as (Hin' & Hpre' & Hmax').
      apply (exact_prefix_same_length b best s); [done..|].
      specialize (Hmax best Hin' Hpre'). specialize (Hmax' b Hin Hpre). lia.
  - destruct Hinv as [_ Hnone]. split; [done|].
    intros (Hin & Hpre & _). by destruct (Hnone best Hin).
Qed.

Lemma best_matching_none (s : string) (keys : list string) :
  best_matching_old_material_id s keys = None <->
  forall k, k ∈ keys -> ~ exact_prefix k s.
Proof.
  unfold best_matching_old_material_id.
  pose proof (best_matching_invariant s keys) as Hinv.
  unfold prefix_invariant in Hinv.
  destruct (foldl (prefix_step s) (None, (-1)%Z) keys) as [[b|] len];
    cbn [fst snd] in *.
  - destruct Hinv as [_ (Hin & Hpre & _)]. split; [done|].
    intros Hnone. by destruct (Hnone b Hin).
  - by destruct Hinv as [_ Hnone].
Qed.

Lemma assoc_of_key {V : Type} (key : string) (l : list (string * V)) :
  key ∈ map fst l -> is_Some (assoc key l).
Proof.
  induction l as [|[k v] l IH]; cbn; [by intros ?%elem_of_nil|].
  intros Hin. destruct (String.eqb_spec k key) as [->|Hne]; [by eexists|].
  apply IH. apply elem_of_cons in Hin as [->|]; done.
Qed.

(** C8.  For a stack whose material is [m], the parent chosen from the
    dictionary of old parent identities is the longest one that is an exact
    prefix of [m], and none is chosen exactly when no parent is a prefix.
    With the parent [best] and [m = best ++ rest], the identity looked up
    is the identity of the new parent followed by [rest]; the stack gets
    the material found under it, and stays as it is when none is found or
    no parent is a prefix. *)
Theorem longest_prefix_material_resolution `{Collaborators} (reg : Registry)
  (stack : Container) (old_new_material_dict : list (string * Container))
  (m : string) :
  getContainer stack ContainerIndexes_Material = Done m ->
  (forall best,
     best_matching_old_material_id m (map fst old_new_material_dict) = Some best
     <-> longest_prefix_among (map fst old_new_material_dict) m best) /\
  (best_matching_old_material_id m (map fst old_new_material_dict) = None
     <-> forall k, k ∈ map fst old_new_material_dict -> ~ exact_prefix k m) /\
  (forall best rest,
     longest_prefix_among (map fst old_new_material_dict) m best ->
     m = best +:+ rest ->
     exists new_parent,
       assoc best old_new_material_dict = Some new_parent /\
       replaceStackMaterialWithNew reg stack old_new_material_dict =
         match find_material reg (c_id new_parent +:+ rest) with
         | Some new_material =>
             Done (replaceContainer ContainerIndexes_Material
                     (c_id new_material) stack)
         | None => Done stack
         end) /\
  ((forall k, k ∈ map fst old_new_material_dict -> ~ exact_prefix k m) ->
   replaceStackMaterialWithNew reg stack old_new_material_dict = Done stack).
Proof.
  intros Hm. split; [intros best; apply best_matching_some|].
  split; [apply best_matching_none|]. split.
  - intros best rest Hbest ->.
    destruct (assoc_of_key best old_new_material_dict) as [new_parent Hassoc];
      [by destruct Hbest|].
    exists new_parent. split; [done|].
    unfold replaceStackMaterialWithNew. rewrite Hm. cbn.
    apply best_matching_some in Hbest. rewrite Hbest.
    unfold new_material_id. rewrite Hassoc. cbn.
    rewrite slice_from_app. by destruct (find_material _ _).
  - intros Hnone. unfold replaceStackMaterialWithNew. rewrite Hm. cbn.
    apply best_matching_none in Hnone. by rewrite Hnone.
Qed.

Lemma longest_prefix_material_resolution_witness :
  replaceStackMaterialWithNew Sample.pla_registry Sample.pla_stack
    Sample.pla_dict =
  Done (replaceContainer 3 "PLA Premium #2_um3_aa04" Sample.pla_stack).
Proof.
  assert (getContainer Sample.pla_stack ContainerIndexes_Material =
          Done "PLA Premium_um3_aa04") as Hm by reflexivity.
  destruct (longest_prefix_material_resolution Sample.pla_registry
              Sample.pla_stack Sample.pla_dict "PLA Premium_um3_aa04"
              Hm) as (Hbest & _ & Hfound & _).
  destruct (Hfound "PLA Premium" "_um3_aa04") as (new_parent & Hparent & ->).
  - apply Hbest. reflexivity.
  - reflexivity.
  - injection Hparent as <-. reflexivity.
Defined.

(** The example of the specification: with "PLA" and "PLA Premium" both
    given new identities, the parent of "PLA Premium_um3_aa04" is "PLA
    Premium", in whichever order the dictionary holds them. *)
Example pla_premium_selected :
  best_matching_old_material_id "PLA Premium_um3_aa04" ["PLA"; "PLA Premium"]
    = Some "PLA Premium" /\
  best_matching_old_material_id "PLA Premium_um3_aa04" ["PLA Premium"; "PLA"]
    = Some "PLA Premium".
Proof. split; reflexivity. Qed.

(** ** C3: the machine conflict is decided slot by slot *)

Lemma slots_differ_false (stack : Container) (index : nat)
  (id_list : list string) :
  slots_differ stack index id_list = Done false <->
  forall j container_id,
    id_list !! j = Some container_id ->
    slot_matches stack (index + j) container_id.
Proof.
  revert index. induction id_list as [|c id_list IH]; intros index; cbn.
  - split; [intros _ j ? [=] | done].
  - unfold getContainer, slot_matches in *.
    destruct (c_containers stack !! index) as [occupant|] eqn:Hslot; cbn.
    + destruct (decide (occupant <> old_empty_profile_id c)) as [Hne|Heq].
      * split; [done|]. intros Hall. specialize (Hall 0 c eq_refl).
        rewrite Nat.add_0_r, Hslot in Hall. by injection Hall.
      * apply dec_stable in Heq as ->. rewrite IH. split.
        -- intros Hall [|j] cj Hj.
           ++ injection Hj as <-. by rewrite Nat.add_0_r.
           ++ rewrite <- Nat.add_succ_comm. by apply Hall.
        -- intros Hall j cj Hj. rewrite Nat.add_succ_comm.
           by apply (Hall (S j)).
    + split; [done|]. intros Hall. specialize (Hall 0 c eq_refl).
      by rewrite Nat.add_0_r, Hslot in Hall.
Qed.

Lemma slots_differ_true (stack : Container) (index : nat)
  (id_list : list string) :
  slots_differ stack index id_list = Done true <->
  exists i,
    (exists container_id occupant,
       id_list !! i = Some container_id /\
       c_containers stack !! (index + i) = Some occupant /\
       occupant <> old_empty_profile_id container_id) /\
    forall j container_id,
      j < i -> id_list !! j = Some container_id ->
      slot_matches stack (index + j) container_id.
Proof.
  revert index. induction id_list as [|c id_list IH]; intros index; cbn.
  - split; [done|]. by intros (i & (? & ? & [=] & _) & _).
  - unfold getContainer, slot_matches in *.
    destruct (c_containers stack !! index) as [occupant|] eqn:Hslot; cbn.
    + destruct (decide (occupant <> old_empty_profile_id c)) as [Hne|Heq].
      * split; [intros _|done]. exists 0. split.
        -- exists c, occupant. by rewrite Nat.add_0_r.
        -- intros j ? Hj. lia.
      * apply dec_stable in Heq as ->. rewrite IH. split.
        -- intros (i & (ci & o & Hi & Ho & Hne) & Hbefore). exists (S i). split.
           ++ exists ci, o. by rewrite <- Nat.add_succ_comm.
           ++ intros [|j] cj Hlt Hj.
              ** injection Hj as <-. by rewrite Nat.add_0_r.
              ** rewrite <- Nat.add_succ_comm. apply Hbefore; [lia|done].
        -- intros ([|i] & (ci & o & Hi & Ho & Hne) & Hbefore).
           ++ injection Hi as <-. rewrite Nat.add_0_r, Hslot in Ho.
              by injection Ho as <-.
           ++ exists i. split.
              ** exists ci, o. by rewrite Nat.add_succ_comm.
              ** intros j cj Hlt Hj. rewrite Nat.add_succ_comm.
                 apply (Hbefore (S j)); [lia|done].
    + split; [done|]. intros ([|i] & (ci & o & Hi & Ho & Hne) & Hbefore).
      * by rewrite Nat.add_0_r, Hslot in Ho.
      * specialize (Hbefore 0 c ltac:(lia) eq_refl).
        by rewrite Nat.add_0_r, Hslot in Hbefore.
Qed.

(** C3.  For a project whose global stack has the identity of a registered
    stack, the inspection of the machine reports a conflict exactly when
    there is a first slot index at which the registered stack holds another
    identity than the file lists (with "empty_material" and "empty_variant"
    read as "empty"), whatever the file lists after that index; it reports
    none exactly when every listed slot matches.  That the identity of the
    stack is registered decides nothing. *)
Theorem machine_conflict_by_slots (reg : Registry) (global_stack_file : Entry)
  (global_stack : Container) :
  findContainerStacks reg (e_id global_stack_file) = Some global_stack ->
  let id_list :=
    getContainerIdListFromSerialized (e_serialized global_stack_file) in
  (inspect_machine reg global_stack_file = Done (Some global_stack, true) <->
   exists i, first_mismatch global_stack id_list i) /\
  (inspect_machine reg global_stack_file = Done (Some global_stack, false) <->
   forall j container_id,
     id_list !! j = Some container_id ->
     slot_matches global_stack j container_id).
Proof.
  intros Hfound id_list. unfold inspect_machine. rewrite Hfound. fold id_list.
  pose proof (slots_differ_true global_stack 0 id_list) as Htrue.
  pose proof (slots_differ_false global_stack 0 id_list) as Hfalse.
  cbn in Htrue, Hfalse. unfold first_mismatch.
  destruct (slots_differ global_stack 0 id_list) as [[|]|e]; cbn.
  - split.
    + split; [intros _; by apply Htrue | done].
    + split; [done|]. intros Hall. by apply Hfalse in Hall.
  - split.
    + split; [done|]. intros Hex. by apply Htrue in Hex.
    + split; [intros _; by apply Hfalse | done].
  - split.
    + split; [done|]. intros Hex. by apply Htrue in Hex.
    + split; [done|]. intros Hall. by apply Hfalse in Hall.
Qed.

Lemma machine_conflict_by_slots_witness :
  inspect_machine Sample.machine_registry Sample.machine_1_file =
    Done (Some Sample.machine_1, false).
Proof.
  assert (findContainerStacks Sample.machine_registry
            (e_id Sample.machine_1_file) = Some Sample.machine_1) as Hfound
    by reflexivity.
  apply (machine_conflict_by_slots _ _ _ Hfound).
  intros j container_id Hj. unfold slot_matches.
  do 7 (destruct j as [|j]; [injection Hj as <-; reflexivity|]).
  discriminate Hj.
Defined.

(** A file that lists another quality at index 2 is in conflict, though
    the slots after it match again. *)
Example machine_conflict_at_first_mismatch :
  slots_differ Sample.machine_1 0
    ["machine_1_user"; "empty"; "draft"; "empty"; "empty"; "empty";
     "ultimaker3"] = Done true /\
  slots_differ Sample.machine_1 0
    ["machine_1_user"; "empty"; "draft"; "a"; "b"; "c"; "d"; "e"; "f"]
    = Done true.
Proof. split; reflexivity. Qed.

(** ** C4: a position the machine does not have *)

Lemma inspect_extruders_absent (reg : Registry) (global_stack : Container)
  (files : list Entry) (flag result : bool) :
  (exists file, file ∈ files /\ position_absent global_stack file) ->
  inspect_extruders reg global_stack files flag = Done result ->
  result = false.
Proof.
  revert flag. induction files as [|file0 files IH]; intros flag.
  - by intros (file & ?%elem_of_nil & _).
  - intros (file & Hin & Habsent). cbn [inspect_extruders].
    destruct (config_subscript (e_serialized file0) "metadata" "position")
      as [position|e] eqn:Hposition; cbn; [|done].
    destruct (c_extruders global_stack !! position) as [extruder_id|]
      eqn:Hextruder; [|by intros [= <-]].
    destruct (follow reg extruder_id) as [existing|e]; cbn; [|done].
    destruct (slots_differ existing 0 _) as [differs|e]; cbn; [|done].
    apply IH. exists file. split; [|done].
    apply elem_of_cons in Hin as [->|Hin]; [|done].
    destruct Habsent as (position' & Hposition' & Habsent).
    rewrite Hposition in Hposition'. injection Hposition' as <-. congruence.
Qed.

Lemma inspect_extruders_reaches (reg : Registry) (global_stack : Container)
  (pre post : list Entry) (file : Entry) (flag : bool) :
  Forall (extruder_checked reg global_stack) pre ->
  position_absent global_stack file ->
  inspect_extruders reg global_stack (pre ++ file :: post) flag = Done false.
Proof.
  intros Hpre (position & Hposition & Habsent). revert flag.
  induction Hpre as [|file0 pre Hfile0 _ IH]; intros flag;
    cbn [app inspect_extruders].
  - rewrite Hposition. unfold mbind, outcome_bind. by rewrite Habsent.
  - destruct Hfile0 as (p0 & extruder_id & existing & differs &
                        -> & Hextruder & Hexisting & Hdiffers).
    unfold mbind, outcome_bind, follow, subscript.
    rewrite Hextruder, Hexisting, Hdiffers. apply IH.
Qed.

(** C4.  When some extruder stack of the project declares a position that
    the registered machine does not have, the loop over the extruder
    stacks cannot end with a conflict: the result it gives is "no
    conflict".  It gives that result as soon as it reaches the first such
    stack, whatever comes after it and whatever an earlier stack had set,
    provided the stacks before it could be compared. *)
Theorem missing_position_means_no_conflict (reg : Registry)
  (global_stack : Container) (files : list Entry) (flag : bool) :
  (exists file, file ∈ files /\ position_absent global_stack file) ->
  (forall result,
     inspect_extruders reg global_stack files flag = Done result ->
     result = false) /\
  (forall pre file post,
     files = pre ++ file :: post ->
     Forall (extruder_checked reg global_stack) pre ->
     position_absent global_stack file ->
     inspect_extruders reg global_stack files flag = Done false).
Proof.
  intros Habsent. split.
  - intros result. by apply inspect_extruders_absent.
  - intros pre file post -> Hpre Hfile. by apply inspect_extruders_reaches.
Qed.

Lemma missing_position_means_no_conflict_witness :
  inspect_extruders Sample.machine_registry Sample.machine_1
    [Sample.extruder_0_file] false = Done true /\
  inspect_extruders Sample.machine_registry Sample.machine_1
    [Sample.extruder_0_file; Sample.extruder_1_file] false = Done false.
Proof.
  split; [reflexivity|].
  assert (position_absent Sample.machine_1 Sample.extruder_1_file) as Habsent
    by (exists "1"; split; reflexivity).
  assert (exists file,
            file ∈ [Sample.extruder_0_file; Sample.extruder_1_file] /\
            position_absent Sample.machine_1 file) as Hsome.
  { exists Sample.extruder_1_file. split; [|exact Habsent].
    apply elem_of_cons. right. apply elem_of_cons. by left. }
  apply (proj2 (missing_position_means_no_conflict Sample.machine_registry
                  Sample.machine_1 _ false Hsome)
           [Sample.extruder_0_file] Sample.extruder_1_file []);
    [reflexivity| |exact Habsent].
  apply Forall_cons. split; [|apply Forall_nil_2].
  exists "0", "extruder_1", Sample.extruder_1, true.
  repeat split; reflexivity.
Defined.

(** ** The loops of the inspection *)

Lemma foldM_flag {A B : Type} (f : A -> B -> Outcome A) (flag : A -> Prop)
  (P : B -> Prop) :
  (forall a b a', f a b = Done a' -> (flag a' <-> flag a \/ P b)) ->
  forall l a a',
    foldM f a l = Done a' -> (flag a' <-> flag a \/ exists b, b ∈ l /\ P b).
Proof.
  intros Hstep l. induction l as [|b l IH]; intros a a'; cbn [foldM].
  - intros [= <-]. split; [by left|]. intros [|(b & ?%elem_of_nil & _)]; done.
  - destruct (f a b) as [a1|e] eqn:Hf; cbn; [|done].
    intros Hrest. rewrite (IH _ _ Hrest), (Hstep _ _ _ Hf). split.
    + intros [[|]|(b' & Hin & Hb')].
      * by left.
      * right. exists b. split; [apply elem_of_cons; by left | done].
      * right. exists b'. split; [apply elem_of_cons; by right | done].
    + intros [|(b' & [->|Hin]%elem_of_cons & Hb')].
      * left. by left.
      * left. by right.
      * right. by exists b'.
Qed.

Lemma foldM_preserved {A B V : Type} (f : A -> B -> Outcome A) (proj : A -> V) :
  (forall a b a', f a b = Done a' -> proj a' = proj a) ->
  forall l a a', foldM f a l = Done a' -> proj a' = proj a.
Proof.
  intros Hstep l. induction l as [|b l IH]; intros a a'; cbn [foldM].
  - by intros [= <-].
  - destruct (f a b) as [a1|e] eqn:Hf; cbn; [|done].
    intros Hrest. rewrite (IH _ _ Hrest). by apply (Hstep _ b).
Qed.

Lemma foldl_flag {A B : Type} (f : A -> B -> A) (flag : A -> Prop)
  (P : B -> Prop) :
  (forall a b, flag (f a b) <-> flag a \/ P b) ->
  forall l a, flag (foldl f a l) <-> flag a \/ exists b, b ∈ l /\ P b.
Proof.
  intros Hstep l. induction l as [|b l IH]; intros a; cbn [foldl].
  - split; [by left|]. intros [|(b & ?%elem_of_nil & _)]; done.
  - rewrite IH, Hstep. split.
    + intros [[|]|(b' & Hin & Hb')].
      * by left.
      * right. exists b. split; [apply elem_of_cons; by left | done].
      * right. exists b'. split; [apply elem_of_cons; by right | done].
    + intros [|(b' & [->|Hin]%elem_of_cons & Hb')].
      * left. by left.
      * left. by right.
      * right. by exists b'.
Qed.

Lemma foldl_preserved {A B V : Type} (f : A -> B -> A) (proj : A -> V) :
  (forall a b, proj (f a b) = proj a) ->
  forall l a, proj (foldl f a l) = proj a.
Proof.
  intros Hstep l. induction l as [|b l IH]; intros a; cbn [foldl]; [done|].
  by rewrite IH.
Qed.

(** What [inspect] has computed when it returns a report. *)
Lemma inspect_inv `{Collaborators} (archive : Archive) (reg : Registry)
  (report : ConflictReport) :
  inspect archive reg = Done report ->
  let materials :=
    inspect_materials reg
      (list_to_map (map (fun k => (k, false)) resolve_strategy_keys))
      (material_container_files archive) in
  exists (scan : InstanceScan) (machine : option Container),
    foldM (inspect_instance reg) (mkScan materials.1 false false 0 0 0)
      (instance_container_files archive) = Done scan /\
    quality_changes_conflict report = scan_quality_changes_conflict scan /\
    definition_changes_conflict report = scan_definition_changes_conflict scan /\
    material_conflict report = materials.2 /\
    containers_found_dict report =
      match machine with
      | Some _ => <["machine" := true]> (scan_found scan)
      | None => scan_found scan
      end.
Proof.
  intros Hinspect. cbv zeta. unfold inspect in Hinspect.
  set (materials := inspect_materials reg _ _) in *.
  destruct (foldM (count_definition reg) _ _) as [counts|e]; cbn in Hinspect;
    [|done].
  destruct (negb (Nat.eqb counts.1 1)); [done|].
  destruct (foldM (inspect_instance reg) _ _) as [scan|e]; cbn in Hinspect;
    [|done].
  destruct (determineGlobalAndExtruderStackFiles archive) as [stack_files|e];
    cbn in Hinspect; [|done].
  destruct (inspect_machine reg stack_files.1) as [machine|e];
    cbn in Hinspect; [|done].
  exists scan, machine.1. split; [done|].
  destruct (match machine.1 with
            | Some global_stack =>
                if negb machine.2
                then inspect_extruders reg global_stack stack_files.2 machine.2
                else Done machine.2
            | None => Done machine.2
            end) as [conflict|e]; cbn in Hinspect; [|done].
  injection Hinspect as <-. done.
Qed.

(** ** C5: conflicts of quality changes and definition changes *)

(** One round of the loop over the instance containers, for the flags. *)
Lemma inspect_instance_step `{Collaborators} (reg : Registry)
  (st st' : InstanceScan) (file : Entry) :
  inspect_instance reg st file = Done st' ->
  exists imported,
    deserialize (new_container InstanceContainer (e_id file))
      (e_serialized file) = Some imported /\
    scan_quality_changes_conflict st' =
      (if decide (getMetaDataEntry imported "type" = Some "quality_changes")
       then match findInstanceContainers reg (e_id file) with
            | Some live =>
                if container_ne live imported then true
                else scan_quality_changes_conflict st
            | None => scan_quality_changes_conflict st
            end
       else scan_quality_changes_conflict st) /\
    scan_definition_changes_conflict st' =
      (if decide (getMetaDataEntry imported "type" = Some "definition_changes")
       then match findInstanceContainers reg (e_id file) with
            | Some live =>
                if container_ne live imported then true
                else scan_definition_changes_conflict st
            | None => scan_definition_changes_conflict st
            end
       else scan_definition_changes_conflict st) /\
    scan_found st' =
      (if decide (getMetaDataEntry imported "type" = Some "quality_changes")
       then match findInstanceContainers reg (e_id file) with
            | Some _ => <["quality_changes" := true]> (scan_found st)
            | None => scan_found st
            end
       else if decide (getMetaDataEntry imported "type"
                       = Some "definition_changes")
       then match findInstanceContainers reg (e_id file) with
            | Some _ => <["definition_changes" := true]> (scan_found st)
            | None => scan_found st
            end
       else scan_found st).
Proof.
  unfold inspect_instance.
  destruct (deserialize _ _) as [imported|]; [|done].
  intros Hstep. exists imported. split; [done|].
  destruct (decide (getMetaDataEntry imported "type" = Some "quality_changes"))
    as [Hqc|Hqc].
  - rewrite Hqc. rewrite decide_False by done.
    destruct (findInstanceContainers reg (e_id file));
      injection Hstep as <-; done.
  - destruct (decide (getMetaDataEntry imported "type"
                      = Some "definition_changes")) as [Hdc|Hdc].
    + destruct (findInstanceContainers reg (e_id file));
        injection Hstep as <-; done.
    + repeat (case_decide; [injection Hstep as <-; done|]).
      injection Hstep as <-; done.
Qed.

Lemma inspect_instance_conflict `{Collaborators} (reg : Registry)
  (container_type : string) (st st' : InstanceScan) (file : Entry) :
  changes_type container_type ->
  inspect_instance reg st file = Done st' ->
  scan_conflict container_type st' = true <->
  scan_conflict container_type st = true \/
  changes_conflict reg container_type file.
Proof.
  intros Htype (imported & Himported & Hqc & Hdc & _)%inspect_instance_step.
  unfold changes_conflict, imported_profile.
  destruct Htype as [-> | ->];
    [change (scan_conflict "quality_changes") with
        scan_quality_changes_conflict
    |change (scan_conflict "definition_changes") with
        scan_definition_changes_conflict].
  - rewrite Hqc. clear Hqc Hdc. case_decide as Htype.
    + destruct (findInstanceContainers reg (e_id file)) as [live|] eqn:Hlive.
      * destruct (container_ne live imported) eqn:Hne.
        -- split; [intros _|done]. right. by exists imported, live.
        -- split; [by left|]. intros [|(i & l & [Hi _] & Hl & Hne')]; [done|].
           congruence.
      * split; [by left|]. by intros [|(i & l & _ & [=] & _)].
    + split; [by left|]. intros [|(i & l & [Hi Ht] & _)]; [done|]. congruence.
  - rewrite Hdc. clear Hqc Hdc. case_decide as Htype.
    + destruct (findInstanceContainers reg (e_id file)) as [live|] eqn:Hlive.
      * destruct (container_ne live imported) eqn:Hne.
        -- split; [intros _|done]. right. by exists imported, live.
        -- split; [by left|]. intros [|(i & l & [Hi _] & Hl & Hne')]; [done|].
           congruence.
      * split; [by left|]. by intros [|(i & l & _ & [=] & _)].
    + split; [by left|]. intros [|(i & l & [Hi Ht] & _)]; [done|]. congruence.
Qed.

Lemma inspect_instance_found `{Collaborators} (reg : Registry)
  (container_type : string) (st st' : InstanceScan) (file : Entry) :
  changes_type container_type ->
  inspect_instance reg st file = Done st' ->
  scan_found st' !! container_type = Some true <->
  scan_found st !! container_type = Some true \/
  changes_exists reg container_type file.
Proof.
  intros Htype (imported & Himported & _ & _ & Hfound)%inspect_instance_step.
  unfold changes_exists, imported_profile. rewrite Hfound.
  destruct Htype as [-> | ->].
  - case_decide as Hqc.
    + destruct (findInstanceContainers reg (e_id file)) as [live|] eqn:Hlive.
      * rewrite lookup_insert_eq. split; [intros _|done].
        right. by exists imported, live.
      * split; [by left|]. by intros [|(i & l & _ & [=])].
    + case_decide as Hdc.
      * destruct (findInstanceContainers reg (e_id file));
          [rewrite lookup_insert_ne by done|];
          (split; [by left|]; intros [|(i & l & [Hi Ht] & _)]; [done|];
           congruence).
      * split; [by left|]. intros [|(i & l & [Hi Ht] & _)]; [done|]. congruence.
  - case_decide as Hqc.
    + destruct (findInstanceContainers reg (e_id file));
        [rewrite lookup_insert_ne by done|];
        (split; [by left|]; intros [|(i & l & [Hi Ht] & _)]; [done|];
         congruence).
    + case_decide as Hdc.
      * destruct (findInstanceContainers reg (e_id file)) as [live|] eqn:Hlive.
        -- rewrite lookup_insert_eq. split; [intros _|done].
           right. by exists imported, live.
        -- split; [by left|]. by intros [|(i & l & _ & [=])].
      * split; [by left|]. intros [|(i & l & [Hi Ht] & _)]; [done|]. congruence.
Qed.

Lemma inspect_instance_other_key `{Collaborators} (reg : Registry)
  (key : string) (st st' : InstanceScan) (file : Entry) :
  ~ changes_type key ->
  inspect_instance reg st file = Done st' ->
  scan_found st' !! key = scan_found st !! key.
Proof.
  intros Hkey (imported & _ & _ & _ & ->)%inspect_instance_step.
  unfold changes_type in Hkey.
  repeat case_decide; try done;
    destruct (findInstanceContainers reg (e_id file)); try done;
    rewrite lookup_insert_ne; naive_solver.
Qed.

Lemma inspect_material_other_key (reg : Registry) (key : string)
  (st : gmap string bool * bool) (file : TextEntry) :
  key <> "material" ->
  (inspect_material reg st file).1 !! key = st.1 !! key.
Proof.
  intros Hkey. unfold inspect_material.
  destruct (findContainers reg (t_id file)); [|done].
  cbn. by rewrite lookup_insert_ne.
Qed.

Lemma inspect_materials_other_key `{Collaborators} (reg : Registry)
  (key : string) (found : gmap string bool) (files : list TextEntry) :
  key <> "material" ->
  (inspect_materials reg found files).1 !! key = found !! key.
Proof.
  intros Hkey. unfold inspect_materials. destruct xml_material_profile; [|done].
  apply (foldl_preserved (inspect_material reg) (fun st => st.1 !! key)).
  intros st file. by apply inspect_material_other_key.
Qed.

(** C5.  For the type quality_changes and for the type definition_changes:
    a round of the inspection over an imported profile of that type that
    has a registered namesake sets "already exists", and leaves the
    conflict flag of the type true if the registered record compares
    unequal to the imported one and as it was if it compares equal; the
    flag that the inspection reports is true exactly when some imported
    profile of the type has a registered namesake that compares unequal,
    and "already exists" exactly when some has a registered namesake. *)
Theorem changes_conflict_flags `{Collaborators} (archive : Archive)
  (reg : Registry) (container_type : string) :
  changes_type container_type ->
  (forall st file imported live,
     imported_profile file container_type imported ->
     findInstanceContainers reg (e_id file) = Some live ->
     exists st',
       inspect_instance reg st file = Done st' /\
       scan_found st' !! container_type = Some true /\
       scan_conflict container_type st' =
         (if container_ne live imported then true
          else scan_conflict container_type st)) /\
  (forall report,
     inspect archive reg = Done report ->
     (report_conflict container_type report = true <->
      exists file,
        file ∈ instance_container_files archive /\
        changes_conflict reg container_type file) /\
     (containers_found_dict report !! container_type = Some true <->
      exists file,
        file ∈ instance_container_files archive /\
        changes_exists reg container_type file)).
Proof.
  intros Htype. split.
  - intros st file imported live [Himported Hty] Hlive.
    unfold inspect_instance. rewrite Himported, Hty, Hlive.
    destruct Htype as [-> | ->].
    + rewrite decide_True by done. eexists. split; [done|].
      change (scan_conflict "quality_changes") with
        scan_quality_changes_conflict. cbn.
      by rewrite lookup_insert_eq.
    + rewrite decide_False by done. rewrite decide_True by done.
      eexists. split; [done|].
      change (scan_conflict "definition_changes") with
        scan_definition_changes_conflict. cbn.
      by rewrite lookup_insert_eq.
  - intros report (scan & machine & Hscan & Hqc & Hdc & _ & Hfound)%inspect_inv.
    split.
    + assert (report_conflict container_type report
              = scan_conflict container_type scan) as ->.
      { unfold report_conflict, scan_conflict. by case_decide. }
      clear Hqc Hdc.
      rewrite (foldM_flag (inspect_instance reg)
                 (fun st => scan_conflict container_type st = true)
                 (changes_conflict reg container_type)
                 (fun a b a' => inspect_instance_conflict reg container_type
                                  a a' b Htype) _ _ _ Hscan).
      unfold scan_conflict; cbn. split; [|by right].
      intros [Hinit|]; [|done]. by case_decide.
    + assert (containers_found_dict report !! container_type
              = scan_found scan !! container_type) as ->.
      { rewrite Hfound. destruct machine; [|done].
        rewrite lookup_insert_ne; [done|]. by destruct Htype as [-> | ->]. }
      rewrite (foldM_flag (inspect_instance reg)
                 (fun st => scan_found st !! container_type = Some true)
                 (changes_exists reg container_type)
                 (fun a b a' => inspect_instance_found reg container_type
                                  a a' b Htype) _ _ _ Hscan).
      cbn. split; [|by right]. intros [Hinit|]; [|done].
      rewrite inspect_materials_other_key in Hinit
        by (by destruct Htype as [-> | ->]).
      by destruct Htype as [-> | ->].
Qed.

Lemma changes_conflict_flags_witness :
  exists report,
    inspect Sample.project Sample.project_registry = Done report /\
    quality_changes_conflict report = true /\
    containers_found_dict report !! "quality_changes" = Some true.
Proof.
  eexists. split; [vm_compute; reflexivity|].
  destruct (changes_conflict_flags Sample.project Sample.project_registry
              "quality_changes" (or_introl eq_refl)) as [_ Hreport].
  split; [reflexivity|].
  apply (Hreport _ eq_refl).
  exists Sample.my_profile_file. split.
  - apply elem_of_cons. by left.
  - eexists _, Sample.my_profile. split; [split; reflexivity | reflexivity].
Defined.

(** ** C6: the material conflict *)

Lemma inspect_material_conflict (reg : Registry)
  (st : gmap string bool * bool) (file : TextEntry) :
  (inspect_material reg st file).2 = true <->
  st.2 = true \/
  (material_exists reg file /\ isReadOnly reg (t_id file) = false).
Proof.
  unfold inspect_material, material_exists.
  destruct (findContainers reg (t_id file)) as [live|]; cbn.
  - destruct (isReadOnly reg (t_id file)); cbn.
    + split; [by left|]. by intros [|[_ ?]].
    + split; [intros _|done]. right. split; [by eexists|done].
  - split; [by left|]. by intros [|[[? [=]] _]].
Qed.

Lemma inspect_material_found (reg : Registry)
  (st : gmap string bool * bool) (file : TextEntry) :
  (inspect_material reg st file).1 !! "material" = Some true <->
  st.1 !! "material" = Some true \/ material_exists reg file.
Proof.
  unfold inspect_material, material_exists.
  destruct (findContainers reg (t_id file)) as [live|]; cbn.
  - rewrite lookup_insert_eq. split; [intros _|done]. right. by eexists.
  - split; [by left|]. by intros [|[? [=]]].
Qed.

(** C6.  The inspection reports a material conflict exactly when the
    archive holds a material whose identity is registered and not
    read-only (and a material profile class is installed); it reports
    "already exists" for materials exactly when the identity of some
    material of the archive is registered.  The round over a material whose
    identity is registered and read-only sets "already exists" and leaves
    the conflict flag as it was. *)
Theorem material_conflict_flag `{Collaborators} (archive : Archive)
  (reg : Registry) (report : ConflictReport) :
  inspect archive reg = Done report ->
  (material_conflict report = true <->
   xml_material_profile = true /\
   exists file,
     file ∈ material_container_files archive /\
     material_exists reg file /\ isReadOnly reg (t_id file) = false) /\
  (containers_found_dict report !! "material" = Some true <->
   xml_material_profile = true /\
   exists file,
     file ∈ material_container_files archive /\ material_exists reg file) /\
  (forall st file,
     material_exists reg file -> isReadOnly reg (t_id file) = true ->
     inspect_material reg st file = (<["material" := true]> st.1, st.2)).
Proof.
  intros (scan & machine & Hscan & _ & _ & Hconflict & Hfound)%inspect_inv.
  split; [|split].
  - rewrite Hconflict. unfold inspect_materials.
    destruct xml_material_profile; cbn; [|by split; [|intros [? _]]].
    rewrite (foldl_flag (inspect_material reg) (fun st => st.2 = true)
               (fun file => material_exists reg file /\
                            isReadOnly reg (t_id file) = false)
               (inspect_material_conflict reg)).
    cbn. split.
    + intros [|Hex]; [done|]. by split.
    + intros [_ Hex]. by right.
  - assert (containers_found_dict report !! "material"
            = scan_found scan !! "material") as ->.
    { rewrite Hfound. destruct machine; [|done]. by rewrite lookup_insert_ne. }
    rewrite (foldM_preserved (inspect_instance reg)
               (fun st => scan_found st !! "material")
               (fun a b a' => inspect_instance_other_key reg "material" a a' b
                                ltac:(by intros [|]))
               _ _ _ Hscan).
    cbn. unfold inspect_materials.
    destruct xml_material_profile; cbn; [|by split; [|intros [? _]]].
    rewrite (foldl_flag (inspect_material reg)
               (fun st => st.1 !! "material" = Some true)
               (material_exists reg) (inspect_material_found reg)).
    cbn. split.
    + intros [|Hex]; [done|]. by split.
    + intros [_ Hex]. by right.
  - intros st file [live Hlive] Hro. unfold inspect_material.
    by rewrite Hlive, Hro.
Qed.

Lemma material_conflict_flag_witness :
  exists report,
    inspect Sample.project Sample.project_registry = Done report /\
    material_conflict report = true /\
    inspect_material Sample.project_registry (∅, false)
      (mkTextEntry "generic_abs" "material") = ({["material" := true]}, false).
Proof.
  eexists. split; [vm_compute; reflexivity|].
  match goal with
  | |- material_conflict ?r = true /\ _ =>
      assert (inspect Sample.project Sample.project_registry = Done r)
        as Hinspect by (vm_compute; reflexivity)
  end.
  destruct (material_conflict_flag Sample.project Sample.project_registry
              _ Hinspect) as (Hconflict & _ & Hreadonly).
  split.
  - apply Hconflict. split; [reflexivity|].
    exists (mkTextEntry "generic_pla" "material"). split.
    + apply elem_of_cons. by left.
    + split; [by eexists | reflexivity].
  - apply (Hreadonly (∅, false)); [by eexists | reflexivity].
Defined.

(** ** C7: the default strategies *)

Lemma inspect_instance_found_key `{Collaborators} (reg : Registry)
  (key : string) (st st' : InstanceScan) (file : Entry) :
  inspect_instance reg st file = Done st' ->
  is_Some (scan_found st !! key) -> is_Some (scan_found st' !! key).
Proof.
  intros (imported & _ & _ & _ & ->)%inspect_instance_step Hkey.
  repeat case_decide; try done;
    destruct (findInstanceContainers reg (e_id file)); try done;
    rewrite lookup_insert_is_Some; destruct (decide (key = "quality_changes"));
    destruct (decide (key = "definition_changes")); naive_solver.
Qed.

Lemma foldM_found_key `{Collaborators} (reg : Registry) (key : string)
  (files : list Entry) (st st' : InstanceScan) :
  foldM (inspect_instance reg) st files = Done st' ->
  is_Some (scan_found st !! key) -> is_Some (scan_found st' !! key).
Proof.
  revert st. induction files as [|file files IH]; intros st; cbn [foldM].
  - by intros [= <-].
  - destruct (inspect_instance reg st file) as [st1|e] eqn:Hstep; cbn; [|done].
    intros Hrest Hkey. apply (IH _ Hrest).
    by apply (inspect_instance_found_key reg key st st1 file).
Qed.

Lemma inspect_materials_found_key `{Collaborators} (reg : Registry)
  (key : string) (found : gmap string bool) (files : list TextEntry) :
  is_Some (found !! key) ->
  is_Some ((inspect_materials reg found files).1 !! key).
Proof.
  unfold inspect_materials. destruct xml_material_profile; [|done].
  generalize false. revert found.
  induction files as [|file files IH]; intros found flag Hkey; cbn [foldl];
    [done|].
  unfold inspect_material at 2.
  destruct (findContainers reg (t_id file)); cbn [fst snd].
  - apply IH. rewrite lookup_insert_is_Some.
    destruct (decide ("material" = key)); naive_solver.
  - destruct found; by apply IH.
Qed.

(** The three keys of the strategies are keys of [containers_found_dict]. *)
Lemma inspect_found_keys `{Collaborators} (archive : Archive) (reg : Registry)
  (report : ConflictReport) (key : string) :
  inspect archive reg = Done report ->
  key ∈ resolve_strategy_keys ->
  is_Some (containers_found_dict report !! key).
Proof.
  intros (scan & machine & Hscan & _ & _ & _ & ->)%inspect_inv Hkey.
  assert (is_Some (scan_found scan !! key)) as Hsome.
  { apply (foldM_found_key reg key _ _ _ Hscan). cbn [scan_found].
    apply inspect_materials_found_key.
    unfold resolve_strategy_keys in Hkey.
    repeat (apply elem_of_cons in Hkey as [->|Hkey]; [by eexists|]).
    by apply elem_of_nil in Hkey. }
  destruct machine; [|done]. rewrite lookup_insert_is_Some.
  destruct (decide ("machine" = key)); naive_solver.
Qed.

(** C7.  When the inspection has produced its report and the dialog gives a
    decision in which a key of machine, material, quality_changes is
    present, [preRead] accepts the file, and the strategy it leaves for the
    key is: the decision itself when one was given; otherwise "override" if
    the report says that a container of that category exists already, and
    "new" if it says that none does. *)
Theorem default_resolve_strategies `{Collaborators}
  (dialog : ConflictReport -> Strategies) (archive : Archive) (reg : Registry)
  (before : Strategies) (report : ConflictReport) (key : string)
  (decision : option string) :
  key ∈ resolve_strategy_keys ->
  inspect archive reg = Done report ->
  has_preferences archive = true ->
  dialog report !! key = Some decision ->
  exists (found : bool) (final : Strategies),
    containers_found_dict report !! key = Some found /\
    preRead true true dialog archive reg before = Done (accepted, final) /\
    final !! key =
      Some (match decision with
            | Some strategy => Some strategy
            | None => Some (if found then "override" else "new")
            end).
Proof.
  intros Hkey Hinspect Hpreferences Hdecision.
  destruct (inspect_found_keys archive reg report key Hinspect Hkey)
    as [found Hfound].
  exists found. eexists. split; [done|].
  unfold preRead. cbn [negb]. rewrite Hinspect. cbn.
  rewrite Hpreferences. cbn [negb].
  rewrite decide_False by (intros Hempty; by rewrite Hempty in Hdecision).
  split; [done|].
  unfold apply_default_strategies. rewrite map_lookup_imap, Hdecision. cbn.
  unfold default_strategy. rewrite Hfound. by destruct decision.
Qed.

Lemma default_resolve_strategies_witness :
  exists final,
    preRead true true Sample.undecided_machine Sample.project
      Sample.project_registry ∅ = Done (accepted, final) /\
    final !! "machine" = Some (Some "override").
Proof.
  destruct (inspect Sample.project Sample.project_registry)
    as [report|e] eqn:Hinspect; [|vm_compute in Hinspect; discriminate].
  destruct (default_resolve_strategies Sample.undecided_machine Sample.project
              Sample.project_registry ∅ report "machine" None)
    as (found & final & Hfound & HpreRead & Hfinal).
  - apply elem_of_cons. by left.
  - exact Hinspect.
  - reflexivity.
  - reflexivity.
  - exists final. split; [exact HpreRead|].
    rewrite Hfinal. vm_compute in Hinspect. injection Hinspect as <-.
    vm_compute in Hfound. by injection Hfound as <-.
Defined.

(** ** C10: user settings when the machine strategy is unset *)

Lemma config_subscript_has_option (parser : Config) (section option v : string) :
  config_subscript parser section option = Done v ->
  has_option parser section option = true.
Proof.
  unfold config_subscript, has_option.
  destruct (assoc section parser) as [opts|]; [|done].
  by destruct (assoc option opts).
Qed.

(** Unless the machine strategy is "new", nothing is renamed. *)
Lemma prepare_ids_not_new `{Collaborators} (resolve_strategies : Strategies)
  (global_stack_file : Entry) (extruder_stack_files : list Entry)
  (st st' : ReadState) (plan : Plan) (machine : option string) :
  resolve_strategies !! "machine" = Some machine ->
  machine <> Some "new" ->
  prepare_ids resolve_strategies global_stack_file extruder_stack_files st
    = Done (plan, st') ->
  exists name,
    config_get (e_serialized global_stack_file) "general" "name" "" = Done name /\
    plan = mkPlan (e_id global_stack_file) (e_id global_stack_file) name false ∅ /\
    st' = st.
Proof.
  intros Hmachine Hnew. unfold prepare_ids, subscript.
  destruct (config_get _ _ _ _) as [name|e]; cbn; [|done].
  rewrite Hmachine. cbn. rewrite decide_False by done.
  intros [= <- <-]. by exists name.
Qed.

(** C10.  In the write pass, for a user container of the project whose
    identity is registered, with the machine strategy unset: the registered
    container takes the content of the file in place and is marked dirty,
    nothing is put on the list of containers to add, and the round is the
    one that the strategy "override" gives. *)
Theorem unset_machine_strategy_overrides_user `{Collaborators}
  (resolve_strategies : Strategies) (global_stack_file : Entry)
  (extruder_stack_files : list Entry) (st0 st1 st : ReadState) (plan : Plan)
  (file : Entry) (imported live loaded : Container) :
  resolve_strategies !! "machine" = Some None ->
  prepare_ids resolve_strategies global_stack_file extruder_stack_files st0
    = Done (plan, st1) ->
  config_subscript (e_serialized file) "metadata" "type" = Done "user" ->
  imported_profile file "user" imported ->
  findInstanceContainers (registry st) (e_id file) = Some live ->
  deserialize live (e_serialized file) = Some loaded ->
  let overriding := <["machine" := Some "override"]> resolve_strategies in
  prepare_ids overriding global_stack_file extruder_stack_files st0
    = Done (plan, st1) /\
  load_instance_container resolve_strategies plan st file =
    Done (mkState (<[e_id file := setDirty true loaded]> (registry st))
            (id_mapping st) (containers_to_add st) (containers_added st)) /\
  load_instance_container overriding plan st file =
    load_instance_container resolve_strategies plan st file.
Proof.
  intros Hmachine Hplan Hdeclared [Himported Htype] Hlive Hloaded overriding.
  destruct (prepare_ids_not_new _ _ _ _ _ _ None Hmachine ltac:(done) Hplan)
    as (name & Hname & -> & ->).
  assert (forall rs machine,
            rs !! "machine" = Some machine ->
            machine = None \/ machine = Some "override" ->
            load_instance_container rs
              (mkPlan (e_id global_stack_file) (e_id global_stack_file) name
                 false ∅) st file =
            Done (mkState (<[e_id file := setDirty true loaded]> (registry st))
                    (id_mapping st) (containers_to_add st)
                    (containers_added st))) as Hround.
  { intros rs machine Hrs Hcase. unfold load_instance_container.
    rewrite (config_subscript_has_option _ _ _ _ Hdeclared), Hdeclared.
    cbn [negb mbind outcome_bind].
    rewrite bool_decide_eq_false_2
      by (unfold ignored_instance_container_types;
          rewrite !elem_of_cons, elem_of_nil; by intros [|[|]]).
    rewrite Himported, Htype.
    rewrite bool_decide_eq_false_2
      by (unfold ignored_instance_container_types;
          rewrite !Exists_cons, Exists_nil; by intros [|[|]]).
    rewrite decide_True by done.
    unfold load_user_container, subscript. rewrite Hlive, Hrs.
    cbn [mbind outcome_bind].
    rewrite decide_True by (destruct Hcase as [-> | ->]; [by right|by left]).
    unfold override_in_place. rewrite Hloaded. cbn [mbind outcome_bind].
    unfold finish_round. by cbn. }
  split; [|split].
  - unfold prepare_ids, subscript. rewrite Hname. cbn.
    unfold overriding. rewrite lookup_insert_eq. cbn.
    by rewrite decide_False by done.
  - apply (Hround _ None); [done | by left].
  - rewrite (Hround resolve_strategies None); [|done|by left].
    apply (Hround overriding (Some "override")); [|by right].
    unfold overriding. by rewrite lookup_insert_eq.
Qed.

Lemma unset_machine_strategy_overrides_user_witness :
  exists plan st,
    prepare_ids Sample.undecided Sample.machine_1_file [Sample.extruder_0_file]
      (mkState Sample.project_registry ∅ [] []) = Done (plan, st) /\
    load_instance_container Sample.undecided plan st Sample.machine_1_user_file =
      Done (mkState
              (<["machine_1_user" :=
                   mkContainer InstanceContainer "machine_1_user"
                     "machine_1_user"
                     {["type" := "user"; "machine" := "machine_1"]}
                     {["infill_sparse_density" := "30"]} [] ∅ false true]>
                 Sample.project_registry)
              ∅ [] []).
Proof.
  eexists _, _. split; [reflexivity|].
  refine (proj1 (proj2
    (unset_machine_strategy_overrides_user Sample.undecided
       Sample.machine_1_file [Sample.extruder_0_file]
       (mkState Sample.project_registry ∅ [] []) _ _ _
       Sample.machine_1_user_file
       (mkContainer InstanceContainer "machine_1_user" "machine_1_user"
          {["type" := "user"; "machine" := "machine_1"]}
          {["infill_sparse_density" := "30"]} [] ∅ false false)
       Sample.machine_1_user
       (mkContainer InstanceContainer "machine_1_user" "machine_1_user"
          {["type" := "user"; "machine" := "machine_1"]}
          {["infill_sparse_density" := "30"]} [] ∅ false false)
       _ _ _ _ _ _)));
    try reflexivity.
  split; reflexivity.
Defined.

(** ** C2: overriding the machine stack *)







(** The same import seen from [read]: the machine is still registered as
    "machine_1" and has kept its identifier. *)
Example override_keeps_identifier :
  exists st final,
    read Sample.override_machine Sample.machine_only Sample.paired_registry =
      Completed (Live "machine_1") [] st /\
    registry st !! "machine_1" = Some final /\
    c_id final = "machine_1" /\
    getMetaDataEntry final "network_authentication_id" = Some "id-1234".
Proof.
  eexists _, _. split; [vm_compute; reflexivity|].
  split; [vm_compute; reflexivity|]. split; reflexivity.
Qed.


(** ** C1: the clean-up after a failed block *)


(** *** Nothing before the batch records a container *)

Ltac unfold_outcome := unfold mbind, outcome_bind, subscript in *.

Ltac crush_round :=
  unfold_outcome; repeat case_match; intros; simplify_eq/=; try done.












Lemma commit_containers (l : list Container) (st : ReadState) :
  containers_added (foldl commit_container st l)
    = containers_added st ++ map c_id l /\
  containers_to_add (foldl commit_container st l) = containers_to_add st.
Proof.
  revert st. induction l as [|c l IH]; intros st; cbn [foldl map].
  - by rewrite app_nil_r.
  - destruct (IH (commit_container st c)) as [-> ->]. cbn.
    by rewrite <- app_assoc.
Qed.


(** *** The guarded blocks only extend the record *)

Lemma record_kept_same {A : Type} (st : ReadState) (r : Attempt A) :
  containers_added (attempt_state r) = containers_added st -> record_kept st r.
Proof. unfold record_kept. by intros ->. Qed.

Lemma record_kept_trans {A : Type} (st st' : ReadState) (r : Attempt A) :
  containers_added st `prefix_of` containers_added st' ->
  record_kept st' r -> record_kept st r.
Proof. unfold record_kept. intros H1 H2. by etrans. Qed.

Lemma ensure_definition_changes_kept `{Collaborators} (stack : Target)
  (st : ReadState) :
  record_kept st (ensure_definition_changes stack st).
Proof.
  apply record_kept_same. unfold ensure_definition_changes.
  by repeat case_match.
Qed.

Lemma load_global_stack_kept `{Collaborators} (resolve_strategies : Strategies)
  (plan : Plan) (global_stack_file : Entry) (st : ReadState) :
  record_kept st
    (load_global_stack resolve_strategies plan global_stack_file st).
Proof.
  unfold load_global_stack.
  destruct (resolve_strategies !! "machine"); [|by apply record_kept_same].
  case_decide.
  - destruct (findContainerStacks _ _); [|by apply record_kept_same].
    destruct (override_machine_stack _ _); [|by apply record_kept_same].
    eapply record_kept_trans; [|apply ensure_definition_changes_kept]. done.
  - case_decide; [|by apply record_kept_same].
    destruct (new_machine_stack _ _); [|by apply record_kept_same].
    eapply record_kept_trans; [|apply ensure_definition_changes_kept].
    cbn. by apply prefix_app_r.
Qed.

Lemma foldA_kept {A B : Type} (f : A -> ReadState -> B -> Attempt A)
  (l : list B) (a : A) (st : ReadState) :
  (forall a st b, record_kept st (f a st b)) ->
  record_kept st (foldA f a st l).
Proof.
  intros Hstep. revert a st.
  induction l as [|b l IH]; intros a st; cbn [foldA];
    [by apply record_kept_same|].
  pose proof (Hstep a st b) as Hb.
  destruct (f a st b) as [a' st'|e st']; [|done].
  eapply record_kept_trans; [exact Hb | apply IH].
Qed.

Lemma overrideExtruderStack_kept `{Collaborators} (global_stack : Container)
  (file : Entry) (st : ReadState) :
  record_kept st (overrideExtruderStack global_stack file st).
Proof.
  apply record_kept_same. unfold overrideExtruderStack.
  by repeat case_match.
Qed.

Lemma new_extruder_stack_kept `{Collaborators} (plan : Plan) (file : Entry)
  (st : ReadState) :
  record_kept st (new_extruder_stack plan file st).
Proof.
  unfold new_extruder_stack.
  repeat case_match; try (by apply record_kept_same).
  unfold record_kept. cbn. by apply prefix_app_r.
Qed.

Lemma load_extruder_stack_kept `{Collaborators} (resolve_strategies : Strategies)
  (plan : Plan) (global_stack : Target) (vars : option Target * list Target)
  (st : ReadState) (file : Entry) :
  record_kept st
    (load_extruder_stack resolve_strategies plan global_stack vars st file).
Proof.
  unfold load_extruder_stack.
  destruct (resolve_strategies !! "machine") as [machine|];
    [|by apply record_kept_same].
  assert (record_kept st
            (if decide (machine = Some "override")
             then match deref (registry st) global_stack with
                  | Done g => overrideExtruderStack g file st
                  | Raised e => Failed e st
                  end
             else if decide (machine = Some "new")
                  then new_extruder_stack plan file st
                  else match vars.1 with
                       | Some stack => Passed (Some stack) st
                       | None => Failed AttributeError st
                       end)) as Hchosen.
  { repeat case_decide.
    - case_match; [apply overrideExtruderStack_kept | by apply record_kept_same].
    - apply new_extruder_stack_kept.
    - by case_match; apply record_kept_same. }
  destruct (if decide (machine = Some "override") then _ else _)
    as [[stack|] st'|e st']; [| done | done].
  eapply record_kept_trans; [exact Hchosen|].
  pose proof (ensure_definition_changes_kept stack st') as Hensure.
  destruct (ensure_definition_changes stack st') as [stack' st''|e st''];
    [|done].
  eapply record_kept_trans; [exact Hensure|].
  apply record_kept_same. by repeat case_match.
Qed.

Lemma replace_slot_kept (created : Container) (existing_id : string)
  (u : unit) (st : ReadState) (idx : nat) :
  record_kept st (replace_slot created existing_id u st idx).
Proof. apply record_kept_same. unfold replace_slot. by case_match. Qed.

Lemma single_extrusion_stack_kept `{Collaborators}
  (resolve_strategies : Strategies) (global_stack : Target) (st : ReadState) :
  record_kept st (single_extrusion_stack resolve_strategies global_stack st).
Proof.
  unfold single_extrusion_stack.
  destruct (deref (registry st) global_stack) as [g|e];
    [|by apply record_kept_same].
  cbv zeta.
  set (st1 := set_registry _ st).
  apply (record_kept_trans st st1); [done|].
  destruct (addExtruderStackForSingleExtrusionMachine _ _ _).2;
    [|by apply record_kept_same].
  destruct (resolve_strategies !! "machine"); [|by apply record_kept_same].
  case_decide; [|by apply record_kept_same].
  destruct (deref (registry st1) global_stack); [|by apply record_kept_same].
  destruct (getMetaDataEntry _ _); [|by apply record_kept_same].
  destruct (_ !! _) as [existing_id|]; [|by apply record_kept_same].
  pose proof (foldA_kept (replace_slot c existing_id)
                (seq 0 ContainerIndexes_count) tt st1
                (replace_slot_kept c existing_id)) as Hslots.
  by destruct (foldA _ _ _ _).
Qed.

Lemma load_extruder_stacks_kept `{Collaborators}
  (resolve_strategies : Strategies) (plan : Plan) (global_stack : Target)
  (files : list Entry) (st : ReadState) :
  record_kept st
    (load_extruder_stacks resolve_strategies plan global_stack files st).
Proof.
  unfold load_extruder_stacks.
  pose proof (foldA_kept
                (load_extruder_stack resolve_strategies plan global_stack)
                files (Some global_stack, []) st
                (fun a s b => load_extruder_stack_kept resolve_strategies plan
                                global_stack a s b)) as Hloop.
  destruct (foldA _ _ _ _) as [vars st'|e st']; [|done].
  destruct vars.2; [|done].
  eapply record_kept_trans; [exact Hloop|].
  apply single_extrusion_stack_kept.
Qed.




(** * Further properties of the reader *)

(** ** [getNewId]: one new identity per old identity *)

(** X1.  [getNewId] only extends its cache; the identity it returns is in
    the cache afterwards; and in any later state that still holds this
    cache entry, whatever the registry holds by then, it returns the same
    identity and changes nothing. *)
Theorem getNewId_stable `{Collaborators} (old_id : string) (st : ReadState) :
  id_mapping st ⊆ id_mapping (getNewId old_id st).2 /\
  id_mapping (getNewId old_id st).2 !! old_id = Some (getNewId old_id st).1 /\
  registry (getNewId old_id st).2 = registry st /\
  forall st',
    id_mapping (getNewId old_id st).2 ⊆ id_mapping st' ->
    getNewId old_id st' = ((getNewId old_id st).1, st').
Proof.
  assert (id_mapping (getNewId old_id st).2 !! old_id
          = Some (getNewId old_id st).1) as Hcached.
  { unfold getNewId. destruct (id_mapping st !! old_id) eqn:Hold; cbn; [done|].
    apply lookup_insert_eq. }
  split; [|split; [done|split]].
  - unfold getNewId. destruct (id_mapping st !! old_id) eqn:Hold; cbn; [done|].
    by apply insert_subseteq.
  - unfold getNewId. by destruct (id_mapping st !! old_id).
  - intros st' Hsub.
    pose proof (lookup_weaken _ _ _ _ Hcached Hsub) as Hlater.
    unfold getNewId at 1. by rewrite Hlater.
Qed.

Lemma getNewId_stable_witness :
  let first := getNewId "machine_1" (mkState Sample.project_registry ∅ [] []) in
  let second := getNewId "my_profile" (set_registry ∅ first.2) in
  first.1 = "machine_1 #2" /\
  getNewId "machine_1" second.2 = ("machine_1 #2", second.2).
Proof.
  cbv zeta. split; [reflexivity|].
  pose proof (proj2 (proj2 (proj2
    (getNewId_stable "machine_1" (mkState Sample.project_registry ∅ [] [])))))
    as Hstable.
  rewrite Hstable; [reflexivity|].
  change (id_mapping (getNewId "machine_1" _).2) with
    ({["machine_1" := "machine_1 #2"]} : gmap string string).
  change (id_mapping (getNewId "my_profile" _).2) with
    (<["my_profile" := "my_profile #2"]>
       ({["machine_1" := "machine_1 #2"]} : gmap string string)).
  by apply insert_subseteq.
Defined.

(** ** [_determineGlobalAndExtruderStackFiles] *)




(** In an archive of the old kind the stacks are told apart by their type. *)
Example determine_old_project :
  determineGlobalAndExtruderStackFiles Sample.old_project =
    Done (Sample.machine_1_file,
          [Sample.extruder_0_file; Sample.extruder_1_file]) /\
  determineGlobalAndExtruderStackFiles
    (mkArchive [] [] [] [] [Sample.extruder_0_file] [] true)
    = Raised RuntimeError.
Proof. split; reflexivity. Qed.

(** ** [preRead]: the definitions of the archive *)






(** ** [preRead]: a machine that is or is not registered *)

Lemma inspect_inv_machine `{Collaborators} (archive : Archive) (reg : Registry)
  (report : ConflictReport) :
  inspect archive reg = Done report ->
  exists (stack_files : Entry * list Entry) (scan : InstanceScan)
         (machine : option Container * bool),
    determineGlobalAndExtruderStackFiles archive = Done stack_files /\
    inspect_machine reg stack_files.1 = Done machine /\
    scan_found scan !! "machine" = Some false /\
    containers_found_dict report =
      match machine.1 with
      | Some _ => <["machine" := true]> (scan_found scan)
      | None => scan_found scan
      end /\
    (machine.1 = None -> machine_conflict report = machine.2).
Proof.
  intros Hinspect. unfold inspect in Hinspect.
  destruct (foldM (count_definition reg) _ _) as [counts|e]; cbn in Hinspect;
    [|done].
  destruct (negb (Nat.eqb counts.1 1)); [done|].
  destruct (foldM (inspect_instance reg) _ _) as [scan|e] eqn:Hscan;
    cbn in Hinspect; [|done].
  destruct (determineGlobalAndExtruderStackFiles archive) as [stack_files|e];
    cbn in Hinspect; [|done].
  destruct (inspect_machine reg stack_files.1) as [machine|e] eqn:Hmachine;
    cbn in Hinspect; [|done].
  exists stack_files, scan, machine. split; [done|]. split; [done|].
  assert (scan_found scan !! "machine" = Some false) as Hfound.
  { rewrite (foldM_preserved (inspect_instance reg)
               (fun st => scan_found st !! "machine")
               (fun a b a' => inspect_instance_other_key reg "machine" a a' b
                                ltac:(by intros [|]))
               _ _ _ Hscan).
    cbn [scan_found]. by rewrite inspect_materials_other_key. }
  split; [done|].
  destruct machine as [[global_stack|] conflict]; cbn [fst snd] in *.
  - match type of Hinspect with
    | mbind _ ?c = _ => destruct c; cbn in Hinspect; [|done]
    end.
    injection Hinspect as <-. by split.
  - cbn in Hinspect. injection Hinspect as <-. by split.
Qed.

(** X4.  In a report of the inspection, "already exists" for the machine
    says whether a stack with the identity of the global stack file is
    registered; and for a machine that is not registered the report shows
    no machine conflict, whatever the extruder stack files of the archive
    hold. *)
Theorem machine_found_flag `{Collaborators} (archive : Archive) (reg : Registry)
  (report : ConflictReport) (global_stack_file : Entry)
  (extruder_stack_files : list Entry) :
  inspect archive reg = Done report ->
  determineGlobalAndExtruderStackFiles archive
    = Done (global_stack_file, extruder_stack_files) ->
  (containers_found_dict report !! "machine" = Some true <->
   is_Some (findContainerStacks reg (e_id global_stack_file))) /\
  (containers_found_dict report !! "machine" = Some false <->
   findContainerStacks reg (e_id global_stack_file) = None) /\
  (findContainerStacks reg (e_id global_stack_file) = None ->
   machine_conflict report = false).
Proof.
  intros (stack_files & scan & machine & Hfiles & Hmachine & Hscan & Hfound
          & Hconflict)%inspect_inv_machine Hdetermine.
  rewrite Hdetermine in Hfiles. injection Hfiles as <-. cbn [fst] in Hmachine.
  unfold inspect_machine in Hmachine. rewrite Hfound.
  destruct (findContainerStacks reg (e_id global_stack_file)) as [g|].
  - destruct (slots_differ g 0 _); cbn in Hmachine; [|done].
    injection Hmachine as <-. cbn [fst]. rewrite lookup_insert_eq.
    split; [|split]; [by split; [eexists|] | by split | done].
  - injection Hmachine as <-. cbn [fst snd] in *. rewrite Hscan.
    split; [|split]; [by split; [|intros [? ?]] | by split | by auto].
Qed.

Lemma machine_found_flag_witness :
  exists report,
    inspect Sample.other_machine_project Sample.project_registry = Done report /\
    containers_found_dict report !! "machine" = Some false /\
    machine_conflict report = false.
Proof.
  eexists. split; [vm_compute; reflexivity|].
  match goal with
  | |- containers_found_dict ?r !! _ = _ /\ _ =>
      assert (inspect Sample.other_machine_project Sample.project_registry
              = Done r) as Hinspect by (vm_compute; reflexivity)
  end.
  destruct (machine_found_flag Sample.other_machine_project
              Sample.project_registry _ Sample.machine_2_file
              [Sample.extruder_0_file] Hinspect eq_refl)
    as (_ & Hfalse & Hconflict).
  split; [by apply Hfalse | by apply Hconflict].
Defined.

(** ** [preRead]: a file that lists more slots than the stack has *)

Lemma slots_differ_raised (stack : Container) (index : nat)
  (id_list : list string) (e : Exception) :
  slots_differ stack index id_list = Raised e <->
  e = IndexError /\
  exists i container_id,
    id_list !! i = Some container_id /\
    c_containers stack !! (index + i) = None /\
    forall j cj, j < i -> id_list !! j = Some cj ->
                 slot_matches stack (index + j) cj.
Proof.
  revert index. induction id_list as [|c id_list IH]; intros index; cbn.
  - split; [done|]. by intros (_ & i & ? & [=] & _).
  - unfold getContainer, slot_matches in *.
    destruct (c_containers stack !! index) as [occupant|] eqn:Hslot; cbn.
    + destruct (decide (occupant <> old_empty_profile_id c)) as [Hne|Heq].
      * split; [done|]. intros (_ & [|i] & ci & Hi & Hnone & Hbefore).
        -- by rewrite Nat.add_0_r, Hslot in Hnone.
        -- specialize (Hbefore 0 c ltac:(lia) eq_refl).
           rewrite Nat.add_0_r, Hslot in Hbefore. by injection Hbefore.
      * apply dec_stable in Heq as ->. rewrite IH. split.
        -- intros (-> & i & ci & Hi & Hnone & Hbefore). split; [done|].
           exists (S i), ci. split; [done|].
           split; [by rewrite <- Nat.add_succ_comm|].
           intros [|j] cj Hlt Hj.
           ++ injection Hj as <-. by rewrite Nat.add_0_r.
           ++ rewrite <- Nat.add_succ_comm. apply Hbefore; [lia|done].
        -- intros (-> & [|i] & ci & Hi & Hnone & Hbefore).
           ++ by rewrite Nat.add_0_r, Hslot in Hnone.
           ++ split; [done|]. exists i, ci. split; [done|].
              split; [by rewrite Nat.add_succ_comm|].
              intros j cj Hlt Hj. rewrite Nat.add_succ_comm.
              apply (Hbefore (S j)); [lia|done].
    + split.
      * intros [= <-]. split; [done|]. exists 0, c.
        split; [done|]. split; [by rewrite Nat.add_0_r|]. intros; lia.
      * by intros (-> & _).
Qed.

(** X5.  The comparison of a stack with the slots that a file lists raises
    only IndexError, and raises it exactly when the file lists more slots
    than the stack has and every slot that the stack has matches: such a
    file is not reported as a conflict. *)
Theorem slots_differ_index_error (stack : Container) (id_list : list string) :
  (forall e, slots_differ stack 0 id_list = Raised e -> e = IndexError) /\
  (slots_differ stack 0 id_list = Raised IndexError <->
   List.length (c_containers stack) < List.length id_list /\
   forall j container_id,
     j < List.length (c_containers stack) ->
     id_list !! j = Some container_id ->
     slot_matches stack j container_id).
Proof.
  split.
  - intros e He. by apply slots_differ_raised in He as [-> _].
  - rewrite slots_differ_raised. cbn. split.
    + intros (_ & i & ci & Hi & Hnone & Hbefore).
      apply lookup_ge_None in Hnone.
      assert (i <= List.length (c_containers stack)) as Hle.
      { destruct (decide (i <= List.length (c_containers stack))); [done|].
        destruct (lookup_lt_is_Some_2 id_list (List.length (c_containers stack)))
          as [cj Hcj].
        { apply lookup_lt_Some in Hi. lia. }
        specialize (Hbefore (List.length (c_containers stack)) cj
                      ltac:(lia) Hcj).
        unfold slot_matches in Hbefore.
        apply lookup_lt_Some in Hbefore. lia. }
      assert (i = List.length (c_containers stack)) as -> by lia.
      split; [by apply lookup_lt_Some in Hi|]. exact Hbefore.
    + intros [Hlen Hmatch]. split; [done|].
      destruct (lookup_lt_is_Some_2 id_list (List.length (c_containers stack))
                  Hlen) as [ci Hci].
      exists (List.length (c_containers stack)), ci. split; [done|].
      split; [by apply lookup_ge_None|]. exact Hmatch.
Qed.

Lemma slots_differ_index_error_witness :
  slots_differ Sample.machine_1 0 Sample.eight_slots = Raised IndexError.
Proof.
  apply (proj2 (slots_differ_index_error Sample.machine_1 Sample.eight_slots)).
  split; [cbn; lia|].
  intros j container_id Hj Hlookup. unfold slot_matches.
  do 7 (destruct j as [|j]; [injection Hlookup as <-; reflexivity|]).
  cbn in Hj. lia.
Defined.

(** ** [preRead]: extruder stacks at positions that the machine has *)

Lemma extruder_checked_differs (reg : Registry) (global_stack : Container)
  (file : Entry) :
  extruder_checked reg global_stack file ->
  exists differs : bool,
    (forall (rest : list Entry) (flag : bool),
       inspect_extruders reg global_stack (file :: rest) flag =
       inspect_extruders reg global_stack rest
         (if differs then true else flag)) /\
    (differs = true <-> extruder_differs reg global_stack file).
Proof.
  intros (position & extruder_id & existing & differs
          & Hposition & Hextruder & Hexisting & Hdiffers).
  exists differs. split.
  - intros rest flag. cbn [inspect_extruders].
    unfold mbind, outcome_bind, follow, subscript.
    by rewrite Hposition, Hextruder, Hexisting, Hdiffers.
  - split.
    + intros ->. by exists position, extruder_id, existing.
    + intros (p & x & s & Hp & Hx & Hs & Hd).
      rewrite Hposition in Hp. injection Hp as <-.
      rewrite Hextruder in Hx. injection Hx as <-.
      rewrite Hexisting in Hs. injection Hs as <-.
      rewrite Hdiffers in Hd. by injection Hd.
Qed.

(** X6.  When every extruder stack file of the project declares a position
    that the registered machine has, and can be compared with the extruder
    stack there, the loop over them comes to an end, having compared all of
    them, and reports a conflict exactly when one was set before or some
    extruder stack differs from the file. *)
Theorem extruder_conflicts_accumulate (reg : Registry)
  (global_stack : Container) (files : list Entry) (flag : bool) :
  Forall (extruder_checked reg global_stack) files ->
  exists result,
    inspect_extruders reg global_stack files flag = Done result /\
    (result = true <->
     flag = true \/
     exists file, file ∈ files /\ extruder_differs reg global_stack file).
Proof.
  intros Hfiles. revert flag.
  induction Hfiles as [|file files Hfile _ IH]; intros flag.
  - exists flag. split; [done|]. split; [by left|].
    by intros [|(file & ?%elem_of_nil & _)].
  - destruct (extruder_checked_differs _ _ _ Hfile) as (differs & Hstep & Hd).
    destruct (IH (if differs then true else flag)) as (result & Hrest & Hresult).
    exists result. split; [by rewrite Hstep|].
    rewrite Hresult. split.
    + intros [Hflag|(f & Hin & Hf)].
      * destruct differs.
        -- right. exists file. split; [by apply elem_of_cons; left|].
           by apply Hd.
        -- by left.
      * right. exists f. split; [by apply elem_of_cons; right | done].
    + intros [->|(f & [->|Hin]%elem_of_cons & Hf)].
      * left. by destruct differs.
      * left. apply Hd in Hf as ->. done.
      * right. by exists f.
Qed.

Lemma extruder_conflicts_accumulate_witness :
  inspect_extruders Sample.machine_registry Sample.machine_1
    [Sample.extruder_0_file; Sample.extruder_0_same_file] false = Done true.
Proof.
  destruct (extruder_conflicts_accumulate Sample.machine_registry
              Sample.machine_1
              [Sample.extruder_0_file; Sample.extruder_0_same_file] false)
    as (result & -> & Hresult).
  - repeat (apply Forall_cons; split); [| |apply Forall_nil_2].
    + exists "0", "extruder_1", Sample.extruder_1, true.
      repeat split; reflexivity.
    + exists "0", "extruder_1", Sample.extruder_1, false.
      repeat split; reflexivity.
  - f_equal. apply Hresult. right. exists Sample.extruder_0_file.
    split; [by apply elem_of_cons; left|].
    exists "0", "extruder_1", Sample.extruder_1. repeat split; reflexivity.
Defined.

(** ** [preRead]: the defaults of the strategies *)

Lemma apply_default_strategies_lookup (found : gmap string bool)
  (resolve_strategies : Strategies) (key : string) :
  apply_default_strategies found resolve_strategies !! key =
    default_strategy found key <$> resolve_strategies !! key.
Proof.
  unfold apply_default_strategies. rewrite map_lookup_imap.
  by destruct (resolve_strategies !! key).
Qed.

Lemma default_strategy_twice (found : gmap string bool) (key : string)
  (strategy : option string) :
  default_strategy found key (default_strategy found key strategy) =
    default_strategy found key strategy.
Proof.
  unfold default_strategy. destruct (found !! key) as [f|]; [|done].
  by destruct strategy.
Qed.

(** X7.  The defaults neither add nor drop a category of the decision; a
    category that the inspection has a flag for has a strategy afterwards;
    a category it has no flag for keeps what the decision said; and the
    defaults applied a second time change nothing. *)
Theorem default_strategies_decide (found : gmap string bool)
  (resolve_strategies : Strategies) :
  dom (apply_default_strategies found resolve_strategies)
    = dom resolve_strategies /\
  (forall key strategy,
     apply_default_strategies found resolve_strategies !! key = Some strategy ->
     is_Some (found !! key) -> is_Some strategy) /\
  (forall key,
     found !! key = None ->
     apply_default_strategies found resolve_strategies !! key
       = resolve_strategies !! key) /\
  apply_default_strategies found
    (apply_default_strategies found resolve_strategies)
    = apply_default_strategies found resolve_strategies.
Proof.
  split; [|split; [|split]].
  - apply set_eq. intros key. rewrite !elem_of_dom.
    rewrite apply_default_strategies_lookup.
    by rewrite fmap_is_Some.
  - intros key strategy. rewrite apply_default_strategies_lookup.
    destruct (resolve_strategies !! key) as [given|]; cbn; [|done].
    intros [= <-] [f Hf]. unfold default_strategy. rewrite Hf.
    by destruct given.
  - intros key Hkey. rewrite apply_default_strategies_lookup.
    unfold default_strategy. rewrite Hkey.
    by destruct (resolve_strategies !! key).
  - apply map_eq. intros key. rewrite !apply_default_strategies_lookup.
    destruct (resolve_strategies !! key) as [given|]; cbn; [|done].
    by rewrite default_strategy_twice.
Qed.

Lemma default_strategies_decide_witness :
  exists strategy,
    apply_default_strategies {["machine" := true; "material" := false]}
      Sample.undecided !! "material" = Some (Some strategy) /\
    apply_default_strategies {["machine" := true; "material" := false]}
      Sample.undecided !! "quality_changes" = Some None.
Proof.
  destruct (default_strategies_decide
              {["machine" := true; "material" := false]} Sample.undecided)
    as (_ & Hdecided & Hkept & _).
  destruct (Hdecided "material" (Some "new") eq_refl) as [strategy Hstrategy].
  - by eexists.
  - exists strategy. split.
    + by injection Hstrategy as <-.
    + by rewrite Hkept.
Defined.

(** ** [read]: the machine strategy that it needs *)

Lemma load_global_stack_undecided `{Collaborators}
  (resolve_strategies : Strategies) (plan : Plan) (global_stack_file : Entry)
  (st : ReadState) (machine : option string) :
  resolve_strategies !! "machine" = Some machine ->
  machine <> Some "override" -> machine <> Some "new" ->
  load_global_stack resolve_strategies plan global_stack_file st
    = Failed AttributeError st.
Proof.
  intros Hmachine Hoverride Hnew. unfold load_global_stack.
  rewrite Hmachine. by rewrite !decide_False.
Qed.

Lemma prepare_needs_machine_key `{Collaborators}
  (resolve_strategies : Strategies) (archive : Archive) (reg : Registry)
  (prepared : Plan * (Entry * list Entry) * ReadState) :
  prepare resolve_strategies archive reg = Done prepared ->
  is_Some (resolve_strategies !! "machine").
Proof.
  unfold prepare, prepare_ids. unfold_outcome.
  destruct (negb _); [done|].
  destruct (determineGlobalAndExtruderStackFiles archive); [|done].
  destruct (config_get _ _ _ _); [|done].
  by destruct (resolve_strategies !! "machine").
Qed.

Lemma read_undecided_cleans_up `{Collaborators}
  (resolve_strategies : Strategies) (archive : Archive) (reg : Registry)
  (prepared : Plan * (Entry * list Entry) * ReadState) :
  prepare resolve_strategies archive reg = Done prepared ->
  resolve_strategies !! "machine" <> Some (Some "override") ->
  resolve_strategies !! "machine" <> Some (Some "new") ->
  read resolve_strategies archive reg =
    CleanedUp (clean_up prepared.2) (containers_added prepared.2).
Proof.
  intros Hprepare Hoverride Hnew. unfold read. rewrite Hprepare.
  destruct (prepare_needs_machine_key _ _ _ _ Hprepare) as [machine Hmachine].
  rewrite (load_global_stack_undecided _ _ _ _ machine Hmachine);
    [done|congruence|congruence].
Qed.

Lemma read_completed_decided `{Collaborators}
  (resolve_strategies : Strategies) (archive : Archive) (reg : Registry)
  (global_stack : Target) (extruder_stacks : list Target) (st : ReadState) :
  read resolve_strategies archive reg
    = Completed global_stack extruder_stacks st ->
  resolve_strategies !! "machine" = Some (Some "override") \/
  resolve_strategies !! "machine" = Some (Some "new").
Proof.
  intros Hread.
  destruct (prepare resolve_strategies archive reg) as [prepared|e]
    eqn:Hprepare; [|unfold read in Hread; by rewrite Hprepare in Hread].
  destruct (decide (resolve_strategies !! "machine" = Some (Some "override")));
    [by left|].
  destruct (decide (resolve_strategies !! "machine" = Some (Some "new")));
    [by right|].
  by rewrite (read_undecided_cleans_up _ _ _ prepared) in Hread.
Qed.

(** X8.  [read] comes to the end of its two guarded blocks only with the
    machine strategy "override" or "new".  With any other, and with none,
    once everything before the blocks has gone through, the first block
    fails and [read] ends in the clean-up of what the batch had added. *)
Theorem read_needs_machine_strategy `{Collaborators}
  (resolve_strategies : Strategies) (archive : Archive) (reg : Registry) :
  (forall global_stack extruder_stacks st,
     read resolve_strategies archive reg
       = Completed global_stack extruder_stacks st ->
     resolve_strategies !! "machine" = Some (Some "override") \/
     resolve_strategies !! "machine" = Some (Some "new")) /\
  (forall prepared,
     prepare resolve_strategies archive reg = Done prepared ->
     resolve_strategies !! "machine" <> Some (Some "override") ->
     resolve_strategies !! "machine" <> Some (Some "new") ->
     read resolve_strategies archive reg =
       CleanedUp (clean_up prepared.2) (containers_added prepared.2)).
Proof.
  split.
  - intros global_stack extruder_stacks st. apply read_completed_decided.
  - intros prepared. apply read_undecided_cleans_up.
Qed.

Lemma read_needs_machine_strategy_witness :
  exists reg',
    read Sample.undecided Sample.project Sample.project_registry
      = CleanedUp reg' [].
Proof.
  destruct (prepare Sample.undecided Sample.project Sample.project_registry)
    as [prepared|e] eqn:Hprepare; [|vm_compute in Hprepare; discriminate].
  exists (clean_up prepared.2).
  rewrite (proj2 (read_needs_machine_strategy Sample.undecided Sample.project
                    Sample.project_registry) prepared Hprepare);
    [|vm_compute; discriminate|vm_compute; discriminate].
  vm_compute in Hprepare. by injection Hprepare as <-.
Defined.

(** X9.  When [preRead] is called without the dialog and accepts the file,
    the three strategies it leaves are unset, whatever the inspection has
    found; and a [read] with the strategies so left never comes to the end
    of its guarded blocks. *)
Theorem preRead_without_dialog `{Collaborators} (mesh_reader_accepts : bool)
  (dialog : ConflictReport -> Strategies) (archive : Archive) (reg : Registry)
  (before resolve_strategies : Strategies) :
  preRead mesh_reader_accepts false dialog archive reg before
    = Done (accepted, resolve_strategies) ->
  (forall key,
     key ∈ resolve_strategy_keys -> resolve_strategies !! key = Some None) /\
  (forall archive' reg' global_stack extruder_stacks st,
     read resolve_strategies archive' reg'
       <> Completed global_stack extruder_stacks st).
Proof.
  unfold preRead. destruct mesh_reader_accepts; cbn [negb]; [|done].
  destruct (inspect archive reg) as [report|e]; cbn; [|done].
  destruct (has_preferences archive); cbn [negb]; [|done].
  intros [= <-].
  assert (forall key,
            key ∈ resolve_strategy_keys ->
            (list_to_map (map (fun k => (k, None)) resolve_strategy_keys)
               : Strategies) !! key = Some None) as Hunset.
  { intros key Hkey. unfold resolve_strategy_keys in *.
    repeat (apply elem_of_cons in Hkey as [->|Hkey]; [reflexivity|]).
    by apply elem_of_nil in Hkey. }
  split; [exact Hunset|].
  intros archive' reg' global_stack extruder_stacks st Hread.
  apply read_completed_decided in Hread.
  rewrite Hunset in Hread by (apply elem_of_cons; by left).
  by destruct Hread.
Qed.

Lemma preRead_without_dialog_witness :
  exists resolve_strategies,
    preRead true false Sample.undecided_machine Sample.project
      Sample.project_registry ∅ = Done (accepted, resolve_strategies) /\
    resolve_strategies !! "machine" = Some None.
Proof.
  destruct (preRead true false Sample.undecided_machine Sample.project
              Sample.project_registry ∅) as [[result strategies]|e]
    eqn:HpreRead; [|vm_compute in HpreRead; discriminate].
  assert (result = accepted) as ->
    by (vm_compute in HpreRead; by injection HpreRead as <- _).
  exists strategies. split; [done|].
  apply (proj1 (preRead_without_dialog true Sample.undecided_machine
                  Sample.project Sample.project_registry ∅ strategies
                  HpreRead)).
  apply elem_of_cons. by left.
Defined.

(** ** [read]: what is registered when the guarded blocks begin *)

Lemma addContainer_dom (c : Container) (reg : Registry) :
  dom reg ⊆ dom (addContainer c reg) /\ c_id c ∈ dom (addContainer c reg).
Proof.
  unfold addContainer. destruct (reg !! c_id c) eqn:Hc.
  - split; [done|]. apply elem_of_dom. by eexists.
  - rewrite dom_insert_L. set_solver.
Qed.

Lemma getNewId_registry `{Collaborators} (old_id : string) (st : ReadState) :
  registry (getNewId old_id st).2 = registry st.
Proof. unfold getNewId. by destruct (id_mapping st !! old_id). Qed.

Lemma map_extruder_ids_registry `{Collaborators} (files : list Entry)
  (acc : gmap string string * ReadState) :
  registry (foldl map_extruder_id acc files).2 = registry acc.2.
Proof.
  revert acc. induction files as [|file files IH]; intros acc; cbn [foldl];
    [done|].
  rewrite IH. unfold map_extruder_id. case_match; [|done]. cbn [snd].
  apply getNewId_registry.
Qed.

Lemma prepare_ids_registry `{Collaborators} (resolve_strategies : Strategies)
  (global_stack_file : Entry) (extruder_stack_files : list Entry)
  (st st' : ReadState) (plan : Plan) :
  prepare_ids resolve_strategies global_stack_file extruder_stack_files st
    = Done (plan, st') ->
  registry st' = registry st.
Proof.
  unfold prepare_ids. unfold_outcome.
  destruct (config_get _ _ _ _); [|done].
  destruct (resolve_strategies !! "machine"); [|done].
  case_decide; [|by intros [= _ <-]].
  intros [= _ <-]. rewrite map_extruder_ids_registry. cbn [snd].
  case_match; [|done]. apply getNewId_registry.
Qed.

Lemma load_definition_dom `{Collaborators} (st st' : ReadState)
  (file : TextEntry) :
  load_definition st file = Done st' ->
  dom (registry st) ⊆ dom (registry st').
Proof.
  unfold load_definition. destruct (findDefinitionContainers _ _);
    [by intros [= <-]|].
  destruct (deserialize_text _ _) as [d|]; [|done]. intros [= <-]. cbn.
  apply addContainer_dom.
Qed.

Lemma load_material_dom `{Collaborators} (resolve_strategies : Strategies)
  (st st' : ReadState) (file : TextEntry) :
  load_material resolve_strategies st file = Done st' ->
  dom (registry st) ⊆ dom (registry st').
Proof.
  unfold load_material, append_to_add. crush_round.
  - rewrite dom_insert_L. apply union_subseteq_r.
  - by rewrite getNewId_registry.
Qed.

Lemma load_user_container_dom `{Collaborators}
  (resolve_strategies : Strategies) (plan : Plan) (file : Entry)
  (c : Container) (st : ReadState) (loaded : Loaded) :
  load_user_container resolve_strategies plan file c st = Done loaded ->
  dom (registry st) ⊆ dom (registry loaded.2).
Proof.
  unfold load_user_container, override_in_place. crush_round.
  all: rewrite dom_insert_L; apply union_subseteq_r.
Qed.

Lemma relink_changes_registry `{Collaborators} (plan : Plan) (c : Container)
  (st : ReadState) :
  registry (relink_changes plan c st).2 = registry st.
Proof.
  unfold relink_changes. repeat case_match; try done.
  all: apply getNewId_registry.
Qed.

Lemma load_changes_container_dom `{Collaborators}
  (resolve_strategies : Strategies) (plan : Plan) (container_type : string)
  (file : Entry) (c : Container) (st : ReadState) (loaded : Loaded) :
  load_changes_container resolve_strategies plan container_type file c st
    = Done loaded ->
  dom (registry st) ⊆ dom (registry loaded.2).
Proof.
  unfold load_changes_container, override_in_place. crush_round.
  - rewrite dom_insert_L. apply union_subseteq_r.
  - by rewrite relink_changes_registry, getNewId_registry.
  - by rewrite getNewId_registry.
Qed.

Lemma finish_round_dom (plan : Plan) (loaded : Loaded) :
  dom (registry (finish_round plan loaded)) = dom (registry loaded.2).
Proof.
  unfold finish_round. repeat case_match; try done.
  cbn. apply dom_alter_L.
Qed.

Lemma load_instance_container_dom `{Collaborators}
  (resolve_strategies : Strategies) (plan : Plan) (st st' : ReadState)
  (file : Entry) :
  load_instance_container resolve_strategies plan st file = Done st' ->
  dom (registry st) ⊆ dom (registry st').
Proof.
  unfold load_instance_container. unfold_outcome.
  destruct (negb _); [by intros [= <-]|].
  destruct (config_subscript _ _ _); [|done].
  destruct (bool_decide _); [by intros [= <-]|].
  destruct (deserialize _ _) as [c|]; [|done].
  destruct (bool_decide _); [by intros [= <-]|].
  destruct (if decide (getMetaDataEntry c "type" = Some "user") then _ else _)
    as [loaded|e] eqn:Hloaded; [|done].
  intros [= <-]. rewrite finish_round_dom.
  repeat case_decide.
  - by apply load_user_container_dom in Hloaded.
  - by apply load_changes_container_dom in Hloaded.
  - by apply load_changes_container_dom in Hloaded.
  - by case_match; simplify_eq.
Qed.

Lemma foldM_dom {B : Type} (f : ReadState -> B -> Outcome ReadState)
  (l : list B) :
  (forall a b a', f a b = Done a' -> dom (registry a) ⊆ dom (registry a')) ->
  forall st st', foldM f st l = Done st' ->
                 dom (registry st) ⊆ dom (registry st').
Proof.
  intros Hstep. induction l as [|b l IH]; intros st st'; cbn [foldM].
  - by intros [= <-].
  - destruct (f st b) as [st1|e] eqn:Hf; cbn; [|done].
    intros Hrest. etrans; [by apply (Hstep _ b)|by apply IH].
Qed.

Lemma commit_containers_dom (l : list Container) (st : ReadState) :
  dom (registry st) ⊆ dom (registry (foldl commit_container st l)) /\
  forall c, c ∈ l -> c_id c ∈ dom (registry (foldl commit_container st l)).
Proof.
  revert st. induction l as [|c l IH]; intros st; cbn [foldl].
  - split; [done|]. by intros c ?%elem_of_nil.
  - destruct (IH (commit_container st c)) as [Hsub Hin].
    destruct (addContainer_dom (setDirty true c) (registry st)) as [Hdom Hc].
    split; [by etrans|].
    intros c' [->|Hc']%elem_of_cons; [|by apply Hin].
    apply Hsub. exact Hc.
Qed.

(** X10.  Nothing that [read] does before its guarded blocks takes a
    container out of the registry: every identity registered before is
    registered when the blocks begin; and by then the identity of every
    container of the batch is registered. *)
Theorem prepare_keeps_registered `{Collaborators}
  (resolve_strategies : Strategies) (archive : Archive) (reg : Registry)
  (prepared : Plan * (Entry * list Entry) * ReadState) :
  prepare resolve_strategies archive reg = Done prepared ->
  dom reg ⊆ dom (registry prepared.2) /\
  forall c, c ∈ containers_to_add prepared.2 ->
            c_id c ∈ dom (registry prepared.2).
Proof.
  unfold prepare. unfold_outcome.
  destruct (negb _); [done|].
  destruct (determineGlobalAndExtruderStackFiles archive); [|done].
  destruct (prepare_ids _ _ _ _) as [[plan st1]|] eqn:Hplan; [|done].
  apply prepare_ids_registry in Hplan. cbn [fst snd registry] in *.
  destruct (foldM load_definition _ _) as [st2|] eqn:Hdefinitions; [|done].
  apply (foldM_dom load_definition) in Hdefinitions;
    [|intros s1 b s2; apply load_definition_dom].
  destruct (load_materials _ _ _) as [st3|] eqn:Hmaterials; [|done].
  assert (dom (registry st2) ⊆ dom (registry st3)) as Hst3.
  { unfold load_materials in Hmaterials.
    destruct xml_material_profile; [|by injection Hmaterials as <-].
    apply (foldM_dom _ _
             (fun s1 b s2 => load_material_dom resolve_strategies s1 s2 b)
             _ _ Hmaterials). }
  destruct (foldM (load_instance_container _ _) _ _) as [st4|] eqn:Hinstances;
    [|done].
  apply (foldM_dom _ _
           (fun s1 b s2 =>
              load_instance_container_dom resolve_strategies plan s1 s2 b))
    in Hinstances.
  intros [= <-]. cbn [snd].
  destruct (commit_containers_dom (containers_to_add st4) st4) as [Hsub Hin].
  destruct (commit_containers (containers_to_add st4) st4) as [_ ->].
  split; [|exact Hin].
  rewrite <- Hplan. etrans; [exact Hdefinitions|]. etrans; [exact Hst3|].
  by etrans.
Qed.

Lemma prepare_keeps_registered_witness :
  exists prepared,
    prepare Sample.override_all Sample.broken_project Sample.project_registry
      = Done prepared /\
    "my_profile" ∈ dom (registry prepared.2).
Proof.
  destruct (prepare Sample.override_all Sample.broken_project
              Sample.project_registry) as [prepared|e] eqn:Hprepare;
    [|vm_compute in Hprepare; discriminate].
  exists prepared. split; [done|].
  apply (proj1 (prepare_keeps_registered _ _ _ _ Hprepare)).
  apply elem_of_dom. by eexists.
Defined.

(** ** [read]: materials that are read-only *)

Lemma load_material_read_only `{Collaborators} (resolve_strategies : Strategies)
  (st st' : ReadState) (file : TextEntry) (container_id : string)
  (c : Container) :
  load_material resolve_strategies st file = Done st' ->
  registry st !! container_id = Some c -> c_read_only c = true ->
  registry st' !! container_id = Some c.
Proof.
  intros Hload Hc Hro. unfold load_material, append_to_add in Hload.
  destruct (findInstanceContainers (registry st) (t_id file)) as [live|].
  - destruct (isReadOnly (registry st) (t_id file)) eqn:Hfile; cbn [negb] in *;
      [by injection Hload as <-|].
    unfold_outcome. destruct (resolve_strategies !! "material"); [|done].
    repeat case_decide.
    + destruct (deserialize_text _ _); [|done]. injection Hload as <-. cbn.
      rewrite lookup_insert_ne; [done|]. intros Heq.
      unfold isReadOnly in Hfile. rewrite Heq, Hc in Hfile. congruence.
    + destruct (deserialize_text _ _); [|done]. injection Hload as <-. cbn.
      by rewrite getNewId_registry.
    + by injection Hload as <-.
  - destruct (deserialize_text _ _); [|done]. by injection Hload as <-.
Qed.

(** X11.  The loop of [read] over the materials of the archive leaves every
    registered container that is read-only as it is, whatever the strategy
    for materials. *)
Theorem read_only_materials_untouched `{Collaborators}
  (resolve_strategies : Strategies) (files : list TextEntry)
  (st st' : ReadState) (container_id : string) (c : Container) :
  load_materials resolve_strategies st files = Done st' ->
  registry st !! container_id = Some c -> c_read_only c = true ->
  registry st' !! container_id = Some c.
Proof.
  unfold load_materials. destruct xml_material_profile;
    [|by intros [= <-]].
  revert st. induction files as [|file files IH]; intros st; cbn [foldM].
  - by intros [= <-].
  - destruct (load_material resolve_strategies st file) as [st1|e] eqn:Hstep;
      cbn; [|done].
    intros Hrest Hc Hro. apply (IH st1 Hrest); [|done].
    by apply (load_material_read_only resolve_strategies st st1 file).
Qed.

Lemma read_only_materials_untouched_witness :
  exists st',
    load_materials Sample.override_all
      (mkState Sample.project_registry ∅ [] [])
      [mkTextEntry "generic_pla" "material";
       mkTextEntry "generic_abs" "material"] = Done st' /\
    registry st' !! "generic_abs" = Some Sample.generic_abs /\
    registry st' !! "generic_pla" <> Some Sample.generic_pla.
Proof.
  eexists. split; [vm_compute; reflexivity|]. split.
  - eapply (read_only_materials_untouched Sample.override_all
              [mkTextEntry "generic_pla" "material";
               mkTextEntry "generic_abs" "material"]
              (mkState Sample.project_registry ∅ [] []));
      [vm_compute; reflexivity | reflexivity | reflexivity].
  - vm_compute. discriminate.
Defined.

(** ** [_getContainerIdListFromSerialized]: the two formats *)




(** X13.  The list of slot identities that is returned never has six
    entries, and a list parsed with another length than six is returned as
    it is. *)
Theorem container_id_list_never_six (serialized : Config) :
  List.length (getContainerIdListFromSerialized serialized) <> 6 /\
  (List.length (parse_container_ids serialized) <> 6 ->
   getContainerIdListFromSerialized serialized
     = parse_container_ids serialized).
Proof.
  unfold getContainerIdListFromSerialized.
  destruct (Nat.eqb_spec (List.length (parse_container_ids serialized)) 6)
    as [Hsix|Hother].
  - split; [|done]. rewrite py_insert_length by lia. lia.
  - by split.
Qed.

Lemma container_id_list_never_six_witness :
  getContainerIdListFromSerialized Sample.stray_commas_file
    = ["user"; "quality"].
Proof.
  rewrite (proj2 (container_id_list_never_six Sample.stray_commas_file));
    [reflexivity|].
  vm_compute. discriminate.
Defined.

(** ** [_replaceStackMaterialWithNew]: what it leaves alone *)

(** X14.  Replacing the material of a stack raises only when the stack has
    no material slot, and then IndexError; otherwise it returns the stack
    with the same identity, name, metadata and number of slots, and with
    every slot but the material slot as it was. *)
Theorem replace_material_frame `{Collaborators} (reg : Registry)
  (stack : Container) (old_new_material_dict : list (string * Container)) :
  (forall e,
     replaceStackMaterialWithNew reg stack old_new_material_dict = Raised e ->
     e = IndexError /\ c_containers stack !! ContainerIndexes_Material = None) /\
  (forall stack',
     replaceStackMaterialWithNew reg stack old_new_material_dict = Done stack' ->
     c_id stack' = c_id stack /\ c_name stack' = c_name stack /\
     c_metadata stack' = c_metadata stack /\
     List.length (c_containers stack') = List.length (c_containers stack) /\
     forall index,
       index <> ContainerIndexes_Material ->
       c_containers stack' !! index = c_containers stack !! index).
Proof.
  unfold replaceStackMaterialWithNew, getContainer.
  destruct (c_containers stack !! ContainerIndexes_Material) as [m|] eqn:Hm;
    cbn [mbind outcome_bind].
  - destruct (best_matching_old_material_id m (map fst old_new_material_dict))
      as [best|] eqn:Hbest.
    + apply best_matching_some in Hbest as (Hin & _ & _).
      destruct (assoc_of_key best old_new_material_dict Hin) as [parent Hparent].
      unfold new_material_id. rewrite Hparent. cbn [mbind outcome_bind].
      destruct (find_material reg _) as [new_material|].
      * split; [done|]. intros stack' [= <-]. cbn.
        rewrite length_insert. repeat split; try done.
        intros index Hindex. by rewrite list_lookup_insert_ne.
      * split; [done|]. by intros stack' [= <-].
    + split; [done|]. by intros stack' [= <-].
  - split; [by intros e [= <-]|done].
Qed.

Lemma replace_material_frame_witness :
  exists stack',
    replaceStackMaterialWithNew Sample.pla_registry Sample.pla_stack
      Sample.pla_dict = Done stack' /\
    c_containers stack' !! 4 = Some "aa04".
Proof.
  destruct (replaceStackMaterialWithNew Sample.pla_registry Sample.pla_stack
              Sample.pla_dict) as [stack'|e] eqn:Hreplace;
    [|vm_compute in Hreplace; discriminate].
  exists stack'. split; [done|].
  destruct (proj2 (replace_material_frame Sample.pla_registry Sample.pla_stack
                     Sample.pla_dict) stack' Hreplace)
    as (_ & _ & _ & _ & Hslots).
  rewrite (Hslots 4); [reflexivity | done].
Defined.

(** ** [read]: the identities chosen for the strategy "new" *)

Lemma map_extruder_ids_cover `{Collaborators} (files : list Entry)
  (acc : gmap string string * ReadState) :
  dom acc.1 ⊆ dom (foldl map_extruder_id acc files).1 /\
  forall file, file ∈ files ->
               e_id file ∈ dom (foldl map_extruder_id acc files).1.
Proof.
  revert acc. induction files as [|file files IH]; intros acc; cbn [foldl].
  - split; [done|]. by intros file ?%elem_of_nil.
  - destruct (IH (map_extruder_id acc file)) as [Hsub Hin].
    assert (dom acc.1 ⊆ dom (map_extruder_id acc file).1 /\
            e_id file ∈ dom (map_extruder_id acc file).1) as [Hacc Hfile].
    { unfold map_extruder_id. case_match; cbn [fst]; rewrite dom_insert_L;
        (split; [apply union_subseteq_r |
                 by apply elem_of_union_l, elem_of_singleton]). }
    split; [by etrans|].
    intros f [->|Hf]%elem_of_cons; [by apply Hsub | by apply Hin].
Qed.

(** X15.  With the machine strategy "new": the machine keeps the identity
    of the project exactly when no stack of that identity is registered,
    and is marked for renaming otherwise; and every extruder stack file of
    the project has its entry in the map of extruder identities, so that
    looking one of them up later cannot fail. *)
Theorem new_identities_planned `{Collaborators} (resolve_strategies : Strategies)
  (global_stack_file : Entry) (extruder_stack_files : list Entry)
  (st st' : ReadState) (plan : Plan) :
  resolve_strategies !! "machine" = Some (Some "new") ->
  prepare_ids resolve_strategies global_stack_file extruder_stack_files st
    = Done (plan, st') ->
  (global_stack_need_rename plan = true <->
   is_Some (findContainerStacks (registry st) (e_id global_stack_file))) /\
  (global_stack_need_rename plan = false ->
   global_stack_id_new plan = e_id global_stack_file) /\
  (global_stack_need_rename plan = true ->
   global_stack_id_new plan = (getNewId (e_id global_stack_file) st).1) /\
  (forall file,
     file ∈ extruder_stack_files ->
     is_Some (extruder_stack_id_map plan !! e_id file)).
Proof.
  intros Hmachine. unfold prepare_ids. unfold_outcome.
  destruct (config_get _ _ _ _); [|done]. rewrite Hmachine.
  rewrite decide_True by done. intros [= <- <-]. cbn.
  split; [|split; [|split]].
  - destruct (findContainerStacks _ _); cbn; [by split; [eexists|]|].
    split; [done|]. by intros [? ?].
  - by destruct (findContainerStacks _ _).
  - by destruct (findContainerStacks _ _).
  - intros file Hfile. apply elem_of_dom.
    by apply map_extruder_ids_cover.
Qed.

Lemma new_identities_planned_witness :
  exists plan st',
    prepare_ids Sample.all_new Sample.machine_1_file [Sample.extruder_1_file]
      (mkState Sample.project_registry ∅ [] []) = Done (plan, st') /\
    global_stack_id_new plan = "machine_1 #2" /\
    extruder_stack_id_map plan !! "extruder_2" = Some "extruder_2".
Proof.
  destruct (prepare_ids Sample.all_new Sample.machine_1_file
              [Sample.extruder_1_file]
              (mkState Sample.project_registry ∅ [] []))
    as [[plan st']|e] eqn:Hplan; [|vm_compute in Hplan; discriminate].
  exists plan, st'. split; [done|].
  destruct (new_identities_planned Sample.all_new _ _ _ _ _ eq_refl Hplan)
    as (Hrename & _ & Hnew & _).
  split.
  - rewrite Hnew; [reflexivity|]. apply Hrename. by eexists.
  - vm_compute in Hplan. by injection Hplan as <- _.
Defined.

(** ** [read]: instance containers that are passed over *)

Lemma load_passed_over `{Collaborators} (resolve_strategies : Strategies)
  (plan : Plan) (st : ReadState) (file : Entry) :
  passed_over file ->
  load_instance_container resolve_strategies plan st file = Done st.
Proof.
  unfold passed_over, load_instance_container.
  destruct (has_option (e_serialized file) "metadata" "type") eqn:Hhas;
    cbn [negb]; [|done].
  destruct (config_subscript _ _ _) as [declared|e] eqn:Hdeclared.
  - intros Hin. cbn [mbind outcome_bind]. by rewrite bool_decide_eq_true_2.
  - unfold config_subscript, has_option in *.
    destruct (assoc "metadata" (e_serialized file)) as [opts|]; [|done].
    by destruct (assoc "type" opts).
Qed.

(** X16.  Instance container files whose metadata state the type "quality"
    or "variant", or state no type, take no part in the write pass: with
    and without them the loop over the instance containers gives the same
    result, and such a file alone changes nothing and cannot make the loop
    fail. *)
Theorem ignored_types_not_loaded `{Collaborators}
  (resolve_strategies : Strategies) (plan : Plan) (files : list Entry)
  (st : ReadState) :
  foldM (load_instance_container resolve_strategies plan) st files =
  foldM (load_instance_container resolve_strategies plan) st
    (filter (fun file => ~ passed_over file) files).
Proof.
  revert st. induction files as [|file files IH]; intros st; [done|].
  rewrite filter_cons. destruct (decide (~ passed_over file)) as [Hkept|Hover].
  - cbn [foldM].
    destruct (load_instance_container resolve_strategies plan st file);
      cbn; [apply IH | done].
  - apply dec_stable in Hover. cbn [foldM].
    rewrite load_passed_over by done. cbn. apply IH.
Qed.

(** A quality profile in the archive leaves the state as it is. *)
Example quality_profile_not_loaded :
  foldM (load_instance_container Sample.all_new
           (mkPlan "machine_1" "machine_1 #2" "My Printer #2" true ∅))
    (mkState Sample.project_registry ∅ [] [])
    [Sample.normal_quality_file]
  = Done (mkState Sample.project_registry ∅ [] []).
Proof. reflexivity. Qed.

(** ** [read]: the machine stack of a completed import *)

Lemma ensure_definition_changes_target `{Collaborators} (stack changed : Target)
  (st st' : ReadState) :
  ensure_definition_changes stack st = Passed changed st' ->
  target_id changed = target_id stack /\
  (forall container_id, stack = Live container_id -> changed = stack).
Proof.
  unfold ensure_definition_changes.
  destruct (deref _ _); [|done].
  destruct (getContainer _ _); [|done].
  case_decide; [|by intros [= <- <-]].
  intros [= <- <-]. by destruct stack.
Qed.

Lemma new_machine_stack_id `{Collaborators} (plan : Plan) (serialized : Config)
  (stack : Container) :
  new_machine_stack plan serialized = Some stack ->
  c_id stack = global_stack_id_new plan.
Proof.
  unfold new_machine_stack. destruct (deserialize _ _); [|done].
  intros [= <-]. by destruct (truthy_opt _).
Qed.

(** X17.  When [read] comes to the end of both guarded blocks, everything
    before them had gone through and the record of added containers has only
    grown since.  With the strategy "override" the machine stack it ends
    with is the registered stack of the identity in the project, which was
    registered before the blocks; with "new" it is a stack of the new
    identity, and that identity is on the record. *)
Theorem completed_machine_stack `{Collaborators}
  (resolve_strategies : Strategies) (archive : Archive) (reg : Registry)
  (global_stack : Target) (extruder_stacks : list Target) (st : ReadState) :
  read resolve_strategies archive reg
    = Completed global_stack extruder_stacks st ->
  exists prepared,
    prepare resolve_strategies archive reg = Done prepared /\
    containers_added prepared.2 `prefix_of` containers_added st /\
    ((resolve_strategies !! "machine" = Some (Some "override") /\
      global_stack = Live (global_stack_id_original prepared.1.1) /\
      is_Some (findContainerStacks (registry prepared.2)
                 (global_stack_id_original prepared.1.1))) \/
     (resolve_strategies !! "machine" = Some (Some "new") /\
      target_id global_stack = global_stack_id_new prepared.1.1 /\
      global_stack_id_new prepared.1.1 ∈ containers_added st)).
Proof.
  unfold read.
  destruct (prepare resolve_strategies archive reg) as [prepared|e]
    eqn:Hprepare; [|done].
  pose proof (load_global_stack_kept resolve_strategies prepared.1.1
                prepared.1.2.1 prepared.2) as Hfirst.
  destruct (load_global_stack _ _ _ _) as [machine_stack st1|e st1]
    eqn:Hglobal; [|done].
  pose proof (load_extruder_stacks_kept resolve_strategies prepared.1.1
                machine_stack prepared.1.2.2 st1) as Hsecond.
  destruct (load_extruder_stacks _ _ _ _ _) as [stacks st2|e st2]; [|done].
  intros [= <- <- <-]. exists prepared. split; [done|].
  unfold record_kept in Hfirst, Hsecond. cbn in Hfirst, Hsecond.
  split; [by etrans|].
  unfold load_global_stack in Hglobal.
  destruct (resolve_strategies !! "machine") as [machine|]; [|done].
  case_decide as Hoverride; [|case_decide as Hnew; [|done]].
  - left. subst machine. split; [done|].
    destruct (findContainerStacks _ _) as [registered|]; [|done].
    destruct (override_machine_stack _ _); [|done].
    apply ensure_definition_changes_target in Hglobal as [_ Hsame].
    split; [by eapply Hsame | by eexists].
  - right. subst machine. split; [done|].
    destruct (new_machine_stack _ _) as [stack|] eqn:Hstack; [|done].
    apply new_machine_stack_id in Hstack.
    pose proof (ensure_definition_changes_kept
                  (added_target (registry prepared.2) stack)
                  (record_added (c_id stack)
                     (addContainer stack (registry prepared.2)) prepared.2))
      as Hkept.
    rewrite Hglobal in Hkept. unfold record_kept in Hkept. cbn in Hkept.
    apply ensure_definition_changes_target in Hglobal as [Hid _].
    split.
    + rewrite Hid, <- Hstack. unfold added_target. by case_match.
    + eapply elem_of_prefix; [|exact Hsecond].
      eapply elem_of_prefix; [|exact Hkept].
      rewrite Hstack. apply elem_of_app. right. by apply list_elem_of_singleton.
Qed.

Lemma completed_machine_stack_witness :
  exists extruder_stacks st,
    read Sample.all_new Sample.machine_only Sample.paired_registry
      = Completed (Live "machine_1 #2") extruder_stacks st /\
    "machine_1 #2" ∈ containers_added st.
Proof.
  destruct (read Sample.all_new Sample.machine_only Sample.paired_registry)
    as [global_stack extruder_stacks st|reg' removed|e] eqn:Hread;
    [|vm_compute in Hread; discriminate..].
  destruct (completed_machine_stack _ _ _ _ _ _ Hread)
    as (prepared & Hprepare & _ & [(Hoverride & _)|(_ & _ & Hrecord)]);
    [vm_compute in Hoverride; discriminate|].
  exists extruder_stacks, st.
  vm_compute in Hprepare. injection Hprepare as <-.
  split; [|exact Hrecord].
  vm_compute in Hread. by injection Hread as <- _ _.
Defined.
